(** * update-ansible-config.py: fetch a Key Vault secret and patch ansible.cfg

    A shallow embedding of [src/update-ansible-config.py].  The script is
    straight-line orchestration over three kinds of effects: console
    output, the file system, and exceptions ([sys.exit] raises
    [SystemExit]).  They are modelled by a state-and-exception monad over
    a [World]; everything the script cannot decide by itself (what the
    [az] subprocesses do, what the SDK returns, whether an I/O call
    fails) is read from an [Env] of outcomes, one per call site. *)

From Stdlib Require Import ZArith Ascii String List Lia Bool.
From Stdlib Require Import Numbers.DecimalString.
From stdpp Require Import base gmap strings.

Open Scope string_scope.
Open Scope list_scope.

(** ** Python [str] operations used by the script

    A [str] is modelled as the Rocq [string] of its UTF-8 encoding, one
    [ascii] per byte.  Searching for and replacing a non-empty literal
    gives the same result on the encoding as on the characters; the
    operations that look at single characters ([strip]) work on the
    encoding of each character. *)
Module PyStr.

(** [sub in s]. *)
Fixpoint contains (sub s : string) : bool :=
  String.prefix sub s ||
  match s with
  | EmptyString => false
  | String _ s' => contains sub s'
  end.

(** The scan of [str.replace] for a non-empty [old]: [skip] counts the
    characters of a match just replaced that are still to be passed
    over, so that matches are taken left to right without overlap. *)
Fixpoint replace_scan (old new : string) (skip : nat) (s : string) : string :=
  match s with
  | EmptyString => EmptyString
  | String c s' =>
      match skip with
      | S k => replace_scan old new k s'
      | O =>
          if String.prefix old s
          then new +:+ replace_scan old new (String.length old - 1) s'
          else String c (replace_scan old new 0 s')
      end
  end.

(** For an empty [old], Python puts [new] before every character and
    at the end. *)
Fixpoint replace_empty (new s : string) : string :=
  match s with
  | EmptyString => new
  | String c s' => new +:+ String c (replace_empty new s')
  end.

(** [s.replace(old, new)]. *)
Definition replace (old new s : string) : string :=
  match old with
  | EmptyString => replace_empty new s
  | String _ _ => replace_scan old new 0 s
  end.

(** The string of the bytes with the given values. *)
Definition bytes (l : list nat) : string :=
  fold_right (fun n s => String (ascii_of_nat n) s) EmptyString l.

(** The characters that [str.isspace] accepts and [str.strip] removes,
    each as its UTF-8 encoding: TAB, LF, VT, FF, CR, the separators FS,
    GS, RS, US and the space; then U+0085 (next line), U+00A0 (no-break
    space), U+1680, U+2000 to U+200A, U+2028, U+2029, U+202F, U+205F and
    U+3000. *)
Definition whitespace : list string :=
  map bytes
    [[9]; [10]; [11]; [12]; [13]; [28]; [29]; [30]; [31]; [32];
     [194; 133]; [194; 160];
     [225; 154; 128];
     [226; 128; 128]; [226; 128; 129]; [226; 128; 130]; [226; 128; 131];
     [226; 128; 132]; [226; 128; 133]; [226; 128; 134]; [226; 128; 135];
     [226; 128; 136]; [226; 128; 137]; [226; 128; 138];
     [226; 128; 168]; [226; 128; 169]; [226; 128; 175];
     [226; 129; 159];
     [227; 128; 128]]%nat.

(** [c.isspace()] for a character [c] given by its encoding. *)
Definition isspace (c : string) : bool := existsb (String.eqb c) whitespace.

(** [s.lstrip()]: a whitespace character at the start takes one, two or
    three bytes. *)
Fixpoint lstrip (s : string) : string :=
  match s with
  | EmptyString => EmptyString
  | String a s1 =>
      if isspace (String a EmptyString) then lstrip s1
      else
        match s1 with
        | EmptyString => s
        | String b s2 =>
            if isspace (String a (String b EmptyString)) then lstrip s2
            else
              match s2 with
              | EmptyString => s
              | String c s3 =>
                  if isspace (String a (String b (String c EmptyString)))
                  then lstrip s3
                  else s
              end
        end
  end.

(** [s.rstrip()]: going from the end, a byte is dropped together with
    what is left after it when the two make up one whitespace
    character. *)
Fixpoint rstrip (s : string) : string :=
  match s with
  | EmptyString => EmptyString
  | String c s' =>
      if isspace (String c (rstrip s')) then EmptyString else String c (rstrip s')
  end.

(** [s.strip()]. *)
Definition strip (s : string) : string := rstrip (lstrip s).

(** [not s] for a [str]. *)
Definition is_empty (s : string) : bool :=
  match s with EmptyString => true | String _ _ => false end.

Definition newline : ascii := ascii_of_nat 10.

Definition carriage_return : ascii := ascii_of_nat 13.

(** What text mode with universal newlines makes of a text that is
    read: every CR LF, and every CR that is left, becomes LF. *)
Fixpoint universal_newlines (s : string) : string :=
  match s with
  | EmptyString => EmptyString
  | String c s' =>
      if Ascii.eqb c carriage_return then
        String newline
          match s' with
          | EmptyString => EmptyString
          | String d s'' =>
              if Ascii.eqb d newline then universal_newlines s''
              else universal_newlines s'
          end
      else String c (universal_newlines s')
  end.

(** [len(re.findall(pat, s, re.MULTILINE))] for a pattern ["^" ++ lit]
    whose literal holds no newline: [^] matches at the start of the
    text and right after each newline; [bol] tells whether the scan
    stands at such a place. *)
Fixpoint count_bol (lit : string) (bol : bool) (s : string) : nat :=
  match s with
  | EmptyString => 0
  | String c s' =>
      (if bol && String.prefix lit s then 1 else 0)
      + count_bol lit (Ascii.eqb c newline) s'
  end.

(** [str(n)] for a count. *)
Definition of_nat (n : nat) : string :=
  NilEmpty.string_of_uint (Nat.to_uint n).

(** The first [n] characters of [s]. *)
Definition take (n : nat) (s : string) : string := String.substring 0 n s.

(** The lines of a text, split at newlines. *)
Fixpoint lines (s : string) : list string :=
  match s with
  | EmptyString => [EmptyString]
  | String c s' =>
      if Ascii.eqb c newline then EmptyString :: lines s'
      else match lines s' with
           | [] => [String c EmptyString]
           | l :: ls => String c l :: ls
           end
  end.

End PyStr.

(** ** Exceptions

    The exception classes that the script's [except] clauses tell apart,
    with the part of Python's class hierarchy that lies between them. *)
Inductive ExcClass :=
| Exception            (* any other subclass of [Exception] *)
| OSError              (* [IOError] is the same class *)
| FileNotFoundError
| PermissionError
| CalledProcessError
| TimeoutExpired
| ValueError
| UnicodeError
| TypeError
| KeyboardInterrupt
| SystemExitClass.

(** A raised exception: an instance of a class with its [str(e)], or the
    [SystemExit] of [sys.exit(code)]. *)
Inductive PyExc :=
| Exc (c : ExcClass) (msg : string)
| SystemExit (code : Z).

Definition class_of (e : PyExc) : ExcClass :=
  match e with
  | Exc c _ => c
  | SystemExit _ => SystemExitClass
  end.

(** [str(e)]. *)
Definition str (e : PyExc) : string :=
  match e with
  | Exc _ msg => msg
  | SystemExit code => PyStr.of_nat (Z.to_nat code)
  end.

(** [issubclass c k]. *)
Definition issubclass (c k : ExcClass) : bool :=
  match k, c with
  | Exception, (KeyboardInterrupt | SystemExitClass) => false
  | Exception, _ => true
  | OSError, (OSError | FileNotFoundError | PermissionError) => true
  | FileNotFoundError, FileNotFoundError => true
  | PermissionError, PermissionError => true
  | CalledProcessError, CalledProcessError => true
  | TimeoutExpired, TimeoutExpired => true
  | ValueError, (ValueError | UnicodeError) => true
  | UnicodeError, UnicodeError => true
  | TypeError, TypeError => true
  | KeyboardInterrupt, KeyboardInterrupt => true
  | SystemExitClass, SystemExitClass => true
  | _, _ => false
  end.

(** [except (k1, k2, ...)] catches [e]. *)
Definition caught_by (ks : list ExcClass) (e : PyExc) : bool :=
  existsb (issubclass (class_of e)) ks.

(** ** The world: file system, console, and a journal of external calls *)

Inductive Syscall :=
| Subprocess (argv : list string)      (* [subprocess.run(argv, check=True, ...)] *)
| GetSecret (vault name version : string)   (* the SDK's [get_secret] *)
| Exists (path : string)               (* [Path.exists] *)
| Copy2 (src dst : string)             (* [shutil.copy2] *)
| ReadText (path : string)             (* [open(path, 'r')] and [read] *)
| WriteText (path data : string).      (* [open(path, 'w')] and [write] *)

(** A journal entry: the call, the file system it found, and the
    exception it raised, if any. *)
Record Entry := mkEntry {
  call : Syscall;
  before : gmap string string;
  raised : option PyExc
}.

Record World := mkWorld {
  fs : gmap string string;      (* path to content *)
  console : list string;        (* lines printed, oldest first *)
  journal : list Entry          (* external calls, oldest first *)
}.

(** What the surroundings answer to a call: a value, or an exception of
    some class with some text. *)
Inductive Outcome (A : Type) :=
| Returns (a : A)
| Raises (c : ExcClass) (msg : string).
Arguments Returns {A} a.
Arguments Raises {A} c msg.

(** A call that writes a file either completes, or fails having left the
    destination untouched ([None], the open failed) or holding only the
    first [n] characters of the data ([Some n], the file was truncated by
    the open and the write stopped short). *)
Inductive WriteOutcome :=
| Written
| WriteFails (c : ExcClass) (msg : string) (partial : option nat).

Record Env := mkEnv {
  AZURE_SDK_AVAILABLE : bool;              (* did the SDK import succeed *)
  az_version : Outcome string;             (* [az --version] *)
  az_account_show : Outcome string;        (* [az account show] *)
  sdk_get_secret : Outcome (option string);(* [Secret.value], maybe [None] *)
  az_secret_show : Outcome string;         (* stdout of [az keyvault secret show] *)
  now : string;                            (* [datetime.now().strftime(...)] *)
  io_backup : WriteOutcome;                (* [copy2(Config_File, Backup_File)] *)
  io_read : Outcome unit;                  (* the read of the patcher *)
  io_write : WriteOutcome;                 (* the write of the patcher *)
  io_restore : WriteOutcome;               (* [copy2(Backup_File, Config_File)] *)
  io_verify : Outcome unit                 (* the read of the verifier *)
}.

(** ** The monad *)

Inductive Res (A : Type) :=
| Ret (a : A)
| Raise (e : PyExc).
Arguments Ret {A} a.
Arguments Raise {A} e.

Definition M (A : Type) : Type := World -> Res A * World.

Definition ret {A} (a : A) : M A := fun w => (Ret a, w).

Definition bind {A B} (m : M A) (k : A -> M B) : M B :=
  fun w =>
    match m w with
    | (Ret a, w') => k a w'
    | (Raise e, w') => (Raise e, w')
    end.

Definition raise {A} (e : PyExc) : M A := fun w => (Raise e, w).

(** [try: body except ks1 as e: h1 e except ks2 as e: h2 e ...]: the
    first clause whose classes catch the exception handles it; what a
    handler raises is not offered to the clauses after it. *)
Fixpoint dispatch {A} (clauses : list (list ExcClass * (PyExc -> M A))) (e : PyExc) : M A :=
  match clauses with
  | [] => raise e
  | (ks, handler) :: rest =>
      if caught_by ks e then handler e else dispatch rest e
  end.

Definition try_ {A} (body : M A) (clauses : list (list ExcClass * (PyExc -> M A))) : M A :=
  fun w =>
    match body w with
    | (Raise e, w') => dispatch clauses e w'
    | r => r
    end.

Definition try_except {A} (body : M A) (ks : list ExcClass) (handler : PyExc -> M A) : M A :=
  try_ body [(ks, handler)].

Declare Scope py_scope.
Delimit Scope py_scope with py.
Notation "x <- m ;; k" := (bind m (fun x => k))
  (at level 100, m at next level, right associativity) : py_scope.
Notation "m ;; k" := (bind m (fun _ => k))
  (at level 100, right associativity) : py_scope.
Open Scope py_scope.

(** [sys.exit(code)]. *)
Definition sys_exit {A} (code : Z) : M A := raise (SystemExit code).

Definition log (c : Syscall) (exc : option PyExc) (w : World) : list Entry :=
  journal w ++ [mkEntry c (fs w) exc].

Definition emit (line : string) : M unit :=
  fun w => (Ret tt, mkWorld (fs w) (console w ++ [line]) (journal w)).

(** [subprocess.run(argv, capture_output=True, text=..., check=True,
    timeout=...)]: the captured stdout, or the exception raised.  With
    [text=True] the output is read in text mode, with universal
    newlines. *)
Definition subprocess_run (argv : list string) (text : bool) (o : Outcome string)
  : M string :=
  fun w =>
    match o with
    | Returns out =>
        (Ret (if text then PyStr.universal_newlines out else out),
         mkWorld (fs w) (console w) (log (Subprocess argv) None w))
    | Raises c msg =>
        (Raise (Exc c msg),
         mkWorld (fs w) (console w) (log (Subprocess argv) (Some (Exc c msg)) w))
    end.

(** [Path(path).exists()]. *)
Definition path_exists (path : string) : M bool :=
  fun w =>
    (Ret (bool_decide (is_Some (fs w !! path))),
     mkWorld (fs w) (console w) (log (Exists path) None w)).

(** The file system after a writing call with outcome [o] that was to
    store [data] at [path]. *)
Definition store (path data : string) (o : WriteOutcome) (m : gmap string string)
  : gmap string string :=
  match o with
  | Written => <[path := data]> m
  | WriteFails _ _ None => m
  | WriteFails _ _ (Some n) => <[path := PyStr.take n data]> m
  end.

Definition write_result (o : WriteOutcome) : Res unit :=
  match o with
  | Written => Ret tt
  | WriteFails c msg _ => Raise (Exc c msg)
  end.

Definition write_error (o : WriteOutcome) : option PyExc :=
  match o with Written => None | WriteFails c msg _ => Some (Exc c msg) end.

(** [FileNotFoundError(2, 'No such file or directory')] for [path]. *)
Definition ENOENT (path : string) : PyExc :=
  Exc FileNotFoundError ("[Errno 2] No such file or directory: '" +:+ path +:+ "'").

(** [shutil.copy2(src, dst)]: a missing source is a [FileNotFoundError]
    whatever the surroundings say. *)
Definition copy2 (src dst : string) (o : WriteOutcome) : M unit :=
  fun w =>
    match fs w !! src with
    | None =>
        (Raise (ENOENT src),
         mkWorld (fs w) (console w) (log (Copy2 src dst) (Some (ENOENT src)) w))
    | Some data =>
        (write_result o,
         mkWorld (store dst data o (fs w)) (console w) (log (Copy2 src dst) (write_error o) w))
    end.

(** [with open(path, 'r', encoding='utf-8') as file: file.read()]: the
    file is opened in text mode, so what is read is the stored text with
    its line ends translated. *)
Definition read_text (path : string) (o : Outcome unit) : M string :=
  fun w =>
    match fs w !! path, o with
    | None, _ =>
        (Raise (ENOENT path),
         mkWorld (fs w) (console w) (log (ReadText path) (Some (ENOENT path)) w))
    | Some data, Returns _ =>
        (Ret (PyStr.universal_newlines data),
         mkWorld (fs w) (console w) (log (ReadText path) None w))
    | Some _, Raises c msg =>
        (Raise (Exc c msg),
         mkWorld (fs w) (console w) (log (ReadText path) (Some (Exc c msg)) w))
    end.

(** [with open(path, 'w', encoding='utf-8') as file: file.write(data)]:
    on writing, text mode turns LF into the line end of the platform,
    which is LF where the script runs (its paths are POSIX paths), so
    the text is stored as it is. *)
Definition write_text (path data : string) (o : WriteOutcome) : M unit :=
  fun w =>
    (write_result o,
     mkWorld (store path data o (fs w)) (console w) (log (WriteText path data) (write_error o) w)).

(** The SDK call sequence of [fetch_keyvault_secret_sdk]: credential,
    client, [get_secret], [.value]. *)
Definition sdk_call (vault name version : string) (o : Outcome (option string))
  : M (option string) :=
  fun w =>
    match o with
    | Returns v => (Ret v, mkWorld (fs w) (console w) (log (GetSecret vault name version) None w))
    | Raises c msg =>
        (Raise (Exc c msg),
         mkWorld (fs w) (console w) (log (GetSecret vault name version) (Some (Exc c msg)) w))
    end.

(** ** The script *)

Definition Config_File_Path : string := "/workspaces/ansible-dev-tools/scripts/ansible.cfg".
Definition Keyvault_Name : string := "kv-weu-wintel-prod".
Definition Secret_Name : string := "APIkey-Private-AAP-HUB".
Definition Secret_Version : string := "6024959f4bec42c4a2500bc31317116d".
Definition Token_Placeholder : string := "Hub_Token".

Module Colors.
Definition ESC : string := String (ascii_of_nat 27) "".
Definition RED : string := ESC +:+ "[0;31m".
Definition GREEN : string := ESC +:+ "[0;32m".
Definition YELLOW : string := ESC +:+ "[1;33m".
Definition NC : string := ESC +:+ "[0m".
End Colors.

Definition print_status (color message : string) : M unit :=
  emit (color +:+ message +:+ Colors.NC).

(** [print()]. *)
Definition print_blank : M unit := emit "".

Definition Vault_Url : string := "https://" +:+ Keyvault_Name +:+ ".vault.azure.net/".

Definition validate_prerequisites (E : Env) : M unit :=
  print_status Colors.YELLOW "🔍 Validating prerequisites...";;
  try_except
    (_ <- subprocess_run ["az"; "--version"] false (az_version E);; ret tt)
    [CalledProcessError; FileNotFoundError; TimeoutExpired]
    (fun _ =>
       print_status Colors.RED "❌ Azure CLI is not installed. Please install it first.";;
       sys_exit 1);;
  (if negb (AZURE_SDK_AVAILABLE E) then
     try_except
       (_ <- subprocess_run ["az"; "account"; "show"] false (az_account_show E);; ret tt)
       [CalledProcessError; TimeoutExpired]
       (fun _ =>
          print_status Colors.RED "❌ Not logged in to Azure. Please run 'az login' first.";;
          sys_exit 1)
   else ret tt);;
  found <- path_exists Config_File_Path;;
  (if negb found then
     print_status Colors.RED ("❌ Ansible config file not found: " +:+ Config_File_Path);;
     sys_exit 1
   else ret tt);;
  print_status Colors.GREEN "✅ Prerequisites validated successfully".

(** The four lines that both fetch paths print when they fail. *)
Definition report_fetch_failure (how : string) (e : PyExc) : M unit :=
  print_status Colors.RED ("❌ Failed to fetch secret using " +:+ how +:+ ": " +:+ str e);;
  print_status Colors.RED ("   Vault: https://" +:+ Keyvault_Name +:+ ".vault.azure.net/");;
  print_status Colors.RED ("   Secret: " +:+ Secret_Name);;
  print_status Colors.RED ("   Version: " +:+ Secret_Version).

(** The value handed on is [Secret.value], which the SDK types as an
    optional string: [None] is Python's [None]. *)
Definition fetch_keyvault_secret_sdk (E : Env) : M (option string) :=
  try_except
    (sdk_call Vault_Url Secret_Name Secret_Version (sdk_get_secret E))
    [Exception]
    (fun e => report_fetch_failure "Azure SDK" e;; sys_exit 1).

Definition az_secret_show_argv : list string :=
  ["az"; "keyvault"; "secret"; "show";
   "--vault-name"; Keyvault_Name;
   "--name"; Secret_Name;
   "--version"; Secret_Version;
   "--query"; "value";
   "--output"; "tsv"].

Definition fetch_keyvault_secret_cli (E : Env) : M (option string) :=
  try_except
    (out <- subprocess_run az_secret_show_argv true (az_secret_show E);;
     let Hub_Token := PyStr.strip out in
     if PyStr.is_empty Hub_Token
     then raise (Exc ValueError "Empty token received from Azure CLI")
     else ret (Some Hub_Token))
    [CalledProcessError; TimeoutExpired; ValueError]
    (fun e => report_fetch_failure "Azure CLI" e;; sys_exit 1).

Definition fetch_keyvault_secret (E : Env) : M (option string) :=
  print_status Colors.YELLOW "🔐 Fetching AAP Hub token from Azure Key Vault...";;
  Hub_Token <-
    (if AZURE_SDK_AVAILABLE E then
       try_except
         (fetch_keyvault_secret_sdk E)
         [SystemExitClass]
         (fun _ =>
            print_status Colors.YELLOW "🔄 Azure SDK failed, falling back to Azure CLI...";;
            fetch_keyvault_secret_cli E)
     else
       print_status Colors.YELLOW "📝 Azure SDK not available, using Azure CLI...";;
       fetch_keyvault_secret_cli E);;
  print_status Colors.GREEN "✅ Successfully retrieved AAP Hub token from Azure Key Vault";;
  ret Hub_Token.

(** [re.escape]: a backslash before each of the characters
    [()[]{}?*+-|^$\.&~#], the space, TAB, LF, CR, VT and FF. *)
Definition re_special (c : ascii) : bool :=
  let n := nat_of_ascii c in
  existsb (Nat.eqb n)
    [40; 41; 91; 93; 123; 125; 63; 42; 43; 45; 124; 94; 36; 92; 46; 38; 126; 35;
     32; 9; 10; 13; 11; 12]%nat.

Fixpoint re_escape_str (s : string) : string :=
  match s with
  | EmptyString => EmptyString
  | String c s' =>
      if re_special c then String (ascii_of_nat 92) (String c (re_escape_str s'))
      else String c (re_escape_str s')
  end.

(** [re.escape(x)] where [x] may be [None]. *)
Definition re_escape (x : option string) : M string :=
  match x with
  | Some s => ret (re_escape_str s)
  | None => raise (Exc TypeError "decoding to str: need a bytes-like object, NoneType found")
  end.

(** [content.replace(old, x)] where [x] may be [None]. *)
Definition str_replace (content old : string) (x : option string) : M string :=
  match x with
  | Some new => ret (PyStr.replace old new content)
  | None => raise (Exc TypeError "replace() argument 2 must be str, not None")
  end.

Definition Backup_File (E : Env) : string :=
  Config_File_Path +:+ ".backup." +:+ now E.

Definition update_ansible_config (E : Env) (Hub_Token : option string) : M unit :=
  print_status Colors.YELLOW "📝 Updating ansible.cfg with AAP Hub token...";;
  try_except
    (copy2 Config_File_Path (Backup_File E) (io_backup E);;
     print_status Colors.GREEN ("📋 Backup created: " +:+ Backup_File E))
    [OSError; OSError]
    (fun e =>
       print_status Colors.RED ("❌ Failed to create backup: " +:+ str e);;
       sys_exit 1);;
  Config_Content <-
    try_except
      (read_text Config_File_Path (io_read E))
      [OSError; OSError]
      (fun e =>
         print_status Colors.RED ("❌ Failed to read configuration file: " +:+ str e);;
         sys_exit 1);;
  Escaped_Token <- re_escape Hub_Token;;
  print_status Colors.GREEN "✅ Starting update of ansible.cfg with AAP Hub token";;
  try_except
    (Updated_Content <- str_replace Config_Content Token_Placeholder Hub_Token;;
     write_text Config_File_Path Updated_Content (io_write E);;
     print_status Colors.GREEN "✅ Successfully updated ansible.cfg with AAP Hub token")
    [OSError; OSError]
    (fun e =>
       print_status Colors.RED ("❌ Failed to update ansible.cfg: " +:+ str e);;
       try_except
         (copy2 (Backup_File E) Config_File_Path (io_restore E);;
          print_status Colors.YELLOW "🔄 Restored original configuration from backup")
         [OSError; OSError]
         (fun restore_error =>
            print_status Colors.RED ("❌ Failed to restore backup: " +:+ str restore_error));;
       sys_exit 1).

(** [len(re.findall(r'^token=', Config_Content, re.MULTILINE))]. *)
Definition Token_Count (Config_Content : string) : nat :=
  PyStr.count_bol "token=" true Config_Content.

Definition verify_update (E : Env) : M unit :=
  print_status Colors.YELLOW "🔍 Verifying configuration update...";;
  Config_Content <-
    try_except
      (read_text Config_File_Path (io_verify E))
      [OSError; OSError]
      (fun e =>
         print_status Colors.RED
           ("❌ Failed to read configuration file for verification: " +:+ str e);;
         sys_exit 1);;
  (if PyStr.contains Token_Placeholder Config_Content then
     print_status Colors.RED "❌ Token placeholder still found in configuration file";;
     sys_exit 1
   else ret tt);;
  (if Nat.eqb (Token_Count Config_Content) 0 then
     print_status Colors.RED "❌ No token configurations found in ansible.cfg";;
     sys_exit 1
   else ret tt);;
  print_status Colors.GREEN "✅ Configuration verification successful";;
  print_status Colors.GREEN
    ("📊 Found " +:+ PyStr.of_nat (Token_Count Config_Content)
     +:+ " token configurations in ansible.cfg").

Definition main (E : Env) : M unit :=
  print_status Colors.GREEN "🚀 Starting AAP Hub token configuration update...";;
  print_blank;;
  try_
    (validate_prerequisites E;;
     print_blank;;
     Hub_Token <- fetch_keyvault_secret E;;
     print_blank;;
     update_ansible_config E Hub_Token;;
     print_blank;;
     verify_update E;;
     print_blank;;
     print_status Colors.GREEN "🎉 Ansible configuration successfully updated with AAP Hub token!";;
     print_status Colors.GREEN ("📁 Configuration file: " +:+ Config_File_Path);;
     print_status Colors.GREEN "🔗 All galaxy server configurations now have valid tokens")
    [ ([KeyboardInterrupt],
       fun _ =>
         print_status Colors.YELLOW (String PyStr.newline "🛑 Operation cancelled by user");;
         sys_exit 1);
      ([Exception],
       fun e =>
         print_status Colors.RED ("❌ Unexpected error: " +:+ str e);;
         sys_exit 1) ].

(** ** Running the script *)

(** The process exit status: 0 when [main] returns, the code of a
    [SystemExit], 1 for any other exception that leaves [main]. *)
Definition exit_code (r : Res unit) : Z :=
  match r with
  | Ret _ => 0
  | Raise (SystemExit code) => code
  | Raise (Exc _ _) => 1
  end.

(** A run starts from a file system, an empty console and an empty
    journal. *)
Definition start (files : gmap string string) : World := mkWorld files [] [].

Definition run (E : Env) (files : gmap string string) : Res unit * World :=
  main E (start files).

Definition status (E : Env) (files : gmap string string) : Z :=
  exit_code (fst (run E files)).

Definition final (E : Env) (files : gmap string string) : World :=
  snd (run E files).

(** * Notions used to state the properties *)

(** The spec's words for the verifier's second check: some line of the
    text begins with [token=]. *)
Definition has_token_line (content : string) : bool :=
  existsb (String.prefix "token=") (PyStr.lines content).

(** [s] holds no newline. *)
Fixpoint no_newline (s : string) : bool :=
  match s with
  | EmptyString => true
  | String c s' => negb (Ascii.eqb c PyStr.newline) && no_newline s'
  end.

(** [s] holds no carriage return. *)
Fixpoint no_carriage_return (s : string) : bool :=
  match s with
  | EmptyString => true
  | String c s' => negb (Ascii.eqb c PyStr.carriage_return) && no_carriage_return s'
  end.

(** The lines of a stored text as text mode delimits them: a line ends
    at LF, at CR LF, or at a CR that no LF follows. *)
Fixpoint text_lines (s : string) : list string :=
  match s with
  | EmptyString => [EmptyString]
  | String c s' =>
      if Ascii.eqb c PyStr.carriage_return then
        EmptyString ::
          match s' with
          | EmptyString => [EmptyString]
          | String d s'' => if Ascii.eqb d PyStr.newline then text_lines s'' else text_lines s'
          end
      else if Ascii.eqb c PyStr.newline then EmptyString :: text_lines s'
      else match text_lines s' with
           | [] => [String c EmptyString]
           | l :: ls => String c l :: ls
           end
  end.

(** Some line of a stored file begins with [token=]. *)
Definition file_has_token_line (stored : string) : bool :=
  existsb (String.prefix "token=") (text_lines stored).

(** The calls the validator makes. *)
Definition validation_call (c : Syscall) : Prop :=
  c = Subprocess ["az"; "--version"]
  \/ c = Subprocess ["az"; "account"; "show"]
  \/ c = Exists Config_File_Path.

(** A call that writes to [path]. *)
Definition writes_to (path : string) (c : Syscall) : bool :=
  match c with
  | Copy2 _ dst => String.eqb dst path
  | WriteText p _ => String.eqb p path
  | _ => false
  end.

(** A call that creates or changes any file. *)
Definition mutating (c : Syscall) : bool :=
  match c with
  | Copy2 _ _ | WriteText _ _ => true
  | _ => false
  end.

(** The write step of the patcher ran and raised an I/O error. *)
Definition write_step_failed (w : World) : Prop :=
  exists en data c msg,
    In en (journal w)
    /\ call en = WriteText Config_File_Path data
    /\ raised en = Some (Exc c msg)
    /\ issubclass c OSError = true.

(** The copy of the backup over the target was started. *)
Definition restore_attempted (E : Env) (w : World) : Prop :=
  exists en, In en (journal w) /\ call en = Copy2 (Backup_File E) Config_File_Path.

(** The copy of the backup over the target returned normally. *)
Definition restored (E : Env) (w : World) : Prop :=
  exists en,
    In en (journal w)
    /\ call en = Copy2 (Backup_File E) Config_File_Path
    /\ raised en = None.

(** The claim that a failed write always leaves the target as it was. *)
Definition write_failure_always_restores : Prop :=
  forall E files,
    write_step_failed (final E files) ->
    fs (final E files) !! Config_File_Path = files !! Config_File_Path
    /\ status E files <> 0%Z.

(** [P pre en] holds of every entry [en] of [j], where [pre] is [acc]
    followed by the entries of [j] before [en]. *)
Fixpoint each_with_prefix (P : list Entry -> Entry -> Prop) (acc j : list Entry) : Prop :=
  match j with
  | [] => True
  | en :: rest => P acc en /\ each_with_prefix P (acc ++ [en]) rest
  end.

(** Among [pre] is a copy of the target to the backup path that returned
    normally. *)
Definition backup_made (E : Env) (pre : list Entry) : Prop :=
  exists b, In b pre /\ call b = Copy2 Config_File_Path (Backup_File E) /\ raised b = None.

(** The copy of the target to the backup path ran and raised. *)
Definition backup_failed (E : Env) (w : World) : Prop :=
  exists b e,
    In b (journal w)
    /\ call b = Copy2 Config_File_Path (Backup_File E)
    /\ raised b = Some e.

(** No call of [j] writes to the target. *)
Definition no_write_to_target (j : list Entry) : bool :=
  forallb (fun x => negb (writes_to Config_File_Path (call x))) j.

(** If [en], coming after [pre], writes to the target, then a backup was
    made before; and if [en] is the first such write, the backup holds
    what the target holds when [en] starts. *)
Definition guarded_write (E : Env) (pre : list Entry) (en : Entry) : Prop :=
  writes_to Config_File_Path (call en) = true ->
  backup_made E pre
  /\ (no_write_to_target pre = true ->
      exists content,
        before en !! Config_File_Path = Some content
        /\ before en !! Backup_File E = Some content).

(** The CLI retrieval fails: the command raises, or its output, read as
    text, is empty after trimming. *)
Definition cli_yields_nothing (E : Env) : Prop :=
  (exists c msg, az_secret_show E = Raises c msg)
  \/ (exists out,
        az_secret_show E = Returns out
        /\ PyStr.strip (PyStr.universal_newlines out) = "").

(** No call of [j] creates or changes a file. *)
Definition no_mutation (j : list Entry) : bool :=
  forallb (fun x => negb (mutating (call x))) j.

(** [E] with [s] as the secret that both retrieval paths obtain: the
    SDK's value and the CLI's output.  Nothing else differs. *)
Definition with_secret (s : string) (E : Env) : Env :=
  mkEnv (AZURE_SDK_AVAILABLE E) (az_version E) (az_account_show E)
    (match sdk_get_secret E with
     | Returns _ => Returns (Some s)
     | Raises c msg => Raises c msg
     end)
    (match az_secret_show E with
     | Returns _ => Returns s
     | Raises c msg => Raises c msg
     end)
    (now E) (io_backup E) (io_read E) (io_write E) (io_restore E) (io_verify E).

(** What the verifier finds out about a text: whether the placeholder
    occurs in it, and how many token lines it has. *)
Definition verdict (content : string) : bool * nat :=
  (PyStr.contains Token_Placeholder content, Token_Count content).

(** What the CLI path makes of the output of the command: the text
    read from it, trimmed. *)
Definition cli_token (out : string) : string :=
  PyStr.strip (PyStr.universal_newlines out).

(** What the verifier reads after the patcher has put [secret] into a
    target that stored [orig]: the patcher reads [orig] as text,
    replaces, and stores the result; the verifier reads that as text. *)
Definition verified_text (secret orig : string) : string :=
  PyStr.universal_newlines
    (PyStr.replace Token_Placeholder secret (PyStr.universal_newlines orig)).

(** Two secrets that the script cannot tell apart: as output of the CLI
    both or neither are empty after trimming, and put into the target,
    as they are (the SDK path) or trimmed (the CLI path), they lead the
    verifier to the same findings. *)
Definition same_verdicts (files : gmap string string) (s1 s2 : string) : Prop :=
  PyStr.is_empty (cli_token s1) = PyStr.is_empty (cli_token s2)
  /\ forall orig,
       files !! Config_File_Path = Some orig ->
       verdict (verified_text s1 orig) = verdict (verified_text s2 orig)
       /\ verdict (verified_text (cli_token s1) orig)
          = verdict (verified_text (cli_token s2) orig).

(** The claim that after a successful run the target holds its stored
    original with the placeholder replaced. *)
Definition success_patches_stored_text : Prop :=
  forall E files,
    status E files = 0%Z ->
    exists orig tok,
      files !! Config_File_Path = Some orig
      /\ (forall w, fst (fetch_keyvault_secret E w) = Ret (Some tok))
      /\ fs (final E files) !! Config_File_Path
         = Some (PyStr.replace Token_Placeholder tok orig)
      /\ PyStr.contains Token_Placeholder (PyStr.replace Token_Placeholder tok orig) = false.

(** The CLI probe returns, and the login check returns or is not made. *)
Definition prerequisites_met (E : Env) : Prop :=
  (exists out, az_version E = Returns out)
  /\ (AZURE_SDK_AVAILABLE E = true \/ exists out, az_account_show E = Returns out).

(** The backup copy, the read and the write of the patcher succeed. *)
Definition patch_io_succeeds (E : Env) : Prop :=
  io_backup E = Written /\ io_read E = Returns tt /\ io_write E = Written.

(** The line with which the verifier reports a placeholder it found. *)
Definition placeholder_found_line : string :=
  Colors.RED +:+ "❌ Token placeholder still found in configuration file" +:+ Colors.NC.

(** The line with which the verifier announces itself. *)
Definition verifying_line : string :=
  Colors.YELLOW +:+ "🔍 Verifying configuration update..." +:+ Colors.NC.

(** The first line of a failure report of the fetch path [how]. *)
Definition headline (how : string) (e : PyExc) : string :=
  Colors.RED +:+ ("❌ Failed to fetch secret using " +:+ how +:+ ": " +:+ str e) +:+ Colors.NC.

(** The diagnostic context printed after it: vault URL, secret name and
    version. *)
Definition diagnostic_context : list string :=
  [Colors.RED +:+ ("   Vault: https://" +:+ Keyvault_Name +:+ ".vault.azure.net/") +:+ Colors.NC;
   Colors.RED +:+ ("   Secret: " +:+ Secret_Name) +:+ Colors.NC;
   Colors.RED +:+ ("   Version: " +:+ Secret_Version) +:+ Colors.NC].

(** What a failed CLI fetch has printed. *)
Definition cli_failure_output (E : Env) (out : list string) : Prop :=
  out = []
  \/ out = headline "Azure CLI" (Exc ValueError "Empty token received from Azure CLI")
           :: diagnostic_context
  \/ exists c msg,
       az_secret_show E = Raises c msg
       /\ out = headline "Azure CLI" (Exc c msg) :: diagnostic_context.

(** What a failed SDK fetch has printed. *)
Definition sdk_failure_output (E : Env) (out : list string) : Prop :=
  out = []
  \/ exists c msg,
       sdk_get_secret E = Raises c msg
       /\ out = headline "Azure SDK" (Exc c msg) :: diagnostic_context.

(** ** Sample inputs *)

(** The configuration of the spec's example scenario. *)
Definition sample_config : string := "token=Hub_Token" +:+ String PyStr.newline "".

Definition sample_files : gmap string string := {[ Config_File_Path := sample_config ]}.

(** Everything works and the SDK delivers [secret]. *)
Definition sdk_env (secret : option string) : Env :=
  mkEnv true (Returns "azure-cli 2.60.0") (Returns "{}") (Returns secret) (Returns "")
    "20240101_120000" Written (Returns tt) Written Written (Returns tt).

(** The disk is full: the write fails after it has truncated the target,
    and so does the copy that should restore it. *)
Definition disk_full_env : Env :=
  mkEnv true (Returns "azure-cli 2.60.0") (Returns "{}") (Returns (Some "abc123")) (Returns "")
    "20240101_120000" Written (Returns tt)
    (WriteFails OSError "[Errno 28] No space left on device" (Some 0))
    (WriteFails OSError "[Errno 28] No space left on device" (Some 0))
    (Returns tt).

(** The CLI is not installed. *)
Definition no_cli_env : Env :=
  mkEnv true (Raises FileNotFoundError "[Errno 2] No such file or directory: 'az'")
    (Returns "{}") (Returns (Some "abc123")) (Returns "")
    "20240101_120000" Written (Returns tt) Written Written (Returns tt).


(** The SDK raises and the CLI command fails too. *)
Definition sdk_down_env : Env :=
  mkEnv true (Returns "azure-cli 2.60.0") (Returns "{}")
    (Raises Exception "DefaultAzureCredential failed to retrieve a token")
    (Raises CalledProcessError "Command 'az' returned non-zero exit status 1.")
    "20240101_120000" Written (Returns tt) Written Written (Returns tt).

(** A configuration that was patched before. *)
Definition patched_config : string := "token=abc123" +:+ String PyStr.newline "".

Definition patched_files : gmap string string := {[ Config_File_Path := patched_config ]}.

(** The sample configuration with a CR LF line end. *)
Definition crlf_config : string :=
  "token=Hub_Token" +:+ String PyStr.carriage_return (String PyStr.newline "").

Definition crlf_files : gmap string string := {[ Config_File_Path := crlf_config ]}.

(** ** Notions for further properties *)

(** The lines of a text that begin with [token=], as the spec words the
    verifier's count. *)
Definition token_lines (content : string) : list string :=
  List.filter (String.prefix "token=") (PyStr.lines content).

(** What a stage may raise: an exception of its surroundings, or the
    [SystemExit] of [sys.exit(1)]. *)
Definition exits_with_1 {A} (r : Res A) : Prop :=
  match r with
  | Raise (SystemExit code) => code = 1%Z
  | _ => True
  end.

(** The line that reports a cancellation. *)
Definition cancelled_line : string :=
  Colors.YELLOW +:+ String PyStr.newline "🛑 Operation cancelled by user" +:+ Colors.NC.

(** ** More sample inputs *)

(** No SDK; the CLI prints the secret and a newline. *)
Definition cli_only_env : Env :=
  mkEnv false (Returns "azure-cli 2.60.0") (Returns "{}") (Returns None)
    (Returns ("abc123" +:+ String PyStr.newline ""))
    "20240101_120000" Written (Returns tt) Written Written (Returns tt).

(** The SDK raises; the CLI prints the secret. *)
Definition fallback_env : Env :=
  mkEnv true (Returns "azure-cli 2.60.0") (Returns "{}")
    (Raises Exception "DefaultAzureCredential failed to retrieve a token")
    (Returns ("abc123" +:+ String PyStr.newline ""))
    "20240101_120000" Written (Returns tt) Written Written (Returns tt).

(** No SDK, and the [az] binary vanished after validation. *)
Definition missing_binary_env : Env :=
  mkEnv false (Returns "azure-cli 2.60.0") (Returns "{}") (Returns None)
    (Raises FileNotFoundError "[Errno 2] No such file or directory: 'az'")
    "20240101_120000" Written (Returns tt) Written Written (Returns tt).

(** The write is interrupted after six characters. *)
Definition interrupted_write_env : Env :=
  mkEnv true (Returns "azure-cli 2.60.0") (Returns "{}") (Returns (Some "abc123")) (Returns "")
    "20240101_120000" Written (Returns tt)
    (WriteFails KeyboardInterrupt "" (Some 6)) Written (Returns tt).

(** * The string operations on examples *)

Example replace_ex1 :
  PyStr.replace "Hub_Token" "abc123" ("token=Hub_Token" +:+ String PyStr.newline "")
  = "token=abc123" +:+ String PyStr.newline "".
Proof. reflexivity. Qed.

Example replace_ex2 : PyStr.replace "aa" "b" "aaaaa" = "bba".
Proof. reflexivity. Qed.

Example replace_ex3 : PyStr.replace "" "-" "ab" = "-a-b-".
Proof. reflexivity. Qed.

Example strip_ex : PyStr.strip ("  a b " +:+ String PyStr.newline "") = "a b".
Proof. reflexivity. Qed.

(** U+00A0, [abc123], U+2003 and a newline. *)
Example strip_ex2 :
  PyStr.strip (PyStr.bytes [194; 160] +:+ "abc123" +:+ PyStr.bytes [226; 128; 131; 10])
  = "abc123".
Proof. reflexivity. Qed.

(** Whitespace only: U+00A0, U+3000 and a newline. *)
Example strip_ex3 : PyStr.strip (PyStr.bytes [194; 160; 227; 128; 128; 10]) = "".
Proof. reflexivity. Qed.

(** U+00E0 ends with the byte of U+00A0 and is no whitespace. *)
Example strip_ex4 :
  PyStr.strip (PyStr.bytes [32; 195; 160; 32]) = PyStr.bytes [195; 160].
Proof. reflexivity. Qed.

Example universal_newlines_ex :
  PyStr.universal_newlines (PyStr.bytes [97; 13; 10; 98; 13; 99; 10; 13; 13; 10])
  = PyStr.bytes [97; 10; 98; 10; 99; 10; 10; 10].
Proof. reflexivity. Qed.

Example text_lines_ex :
  text_lines (PyStr.bytes [97; 13; 10; 98; 13; 99; 10]) = ["a"; "b"; "c"; ""].
Proof. reflexivity. Qed.

Example count_ex :
  PyStr.count_bol "token=" true
    ("token=a" +:+ String PyStr.newline "xtoken=b" +:+ String PyStr.newline "token=c") = 2.
Proof. reflexivity. Qed.

(** * Facts about the string operations *)


Lemma prefix_nil s : String.prefix "" s = true.
Proof. destruct s; reflexivity. Qed.

Lemma prefix_cons a s1 b s2 :
  String.prefix (String a s1) (String b s2)
  = if Ascii.eqb a b then String.prefix s1 s2 else false.
Proof.
  simpl. destruct (ascii_dec a b) as [->|Hne].
  - now rewrite Ascii.eqb_refl.
  - destruct (Ascii.eqb a b) eqn:Hab; [|reflexivity].
    apply Ascii.eqb_eq in Hab. contradiction.
Qed.

Lemma prefix_cons_nil a s1 : String.prefix (String a s1) "" = false.
Proof. reflexivity. Qed.

Lemma prefix_app sub a b :
  String.prefix sub a = true -> String.prefix sub (a +:+ b) = true.
Proof.
  revert a. induction sub as [|c sub IH]; intros a H.
  - apply prefix_nil.
  - destruct a as [|d a]; [discriminate|].
    change (String d a +:+ b) with (String d (a +:+ b)).
    rewrite prefix_cons in *. destruct (Ascii.eqb c d); [auto|discriminate].
Qed.

Lemma contains_cons sub c s :
  PyStr.contains sub s = true -> PyStr.contains sub (String c s) = true.
Proof.
  intros H. change (PyStr.contains sub (String c s))
    with (String.prefix sub (String c s) || PyStr.contains sub s).
  rewrite H. apply orb_true_r.
Qed.

Lemma contains_unfold sub s :
  PyStr.contains sub s
  = String.prefix sub s
    || match s with EmptyString => false | String _ s' => PyStr.contains sub s' end.
Proof. destruct s; reflexivity. Qed.

Lemma contains_app_l sub a b :
  PyStr.contains sub a = true -> PyStr.contains sub (a +:+ b) = true.
Proof.
  induction a as [|c a IH]; intros H; rewrite contains_unfold in H;
    apply orb_true_iff in H as [H|H].
  - rewrite contains_unfold. now rewrite (prefix_app _ _ _ H).
  - discriminate.
  - rewrite contains_unfold. now rewrite (prefix_app _ _ _ H).
  - change (String c a +:+ b) with (String c (a +:+ b)).
    apply contains_cons. auto.
Qed.

Lemma contains_app_r sub a b :
  PyStr.contains sub b = true -> PyStr.contains sub (a +:+ b) = true.
Proof.
  intros H. induction a as [|c a IH]; [exact H|].
  change (String c a +:+ b) with (String c (a +:+ b)).
  now apply contains_cons.
Qed.

(** Without an occurrence of [old], the scan copies the text. *)
Lemma replace_scan_absent old new s :
  PyStr.contains old s = false -> PyStr.replace_scan old new 0 s = s.
Proof.
  induction s as [|c s IH]; intros H; [reflexivity|].
  rewrite contains_unfold in H. apply orb_false_iff in H as [Hp Hc].
  cbn [PyStr.replace_scan]. rewrite Hp. f_equal. auto.
Qed.

Lemma replace_absent old new s :
  PyStr.contains old s = false -> PyStr.replace old new s = s.
Proof.
  intros H. destruct old as [|c old].
  - rewrite contains_unfold, prefix_nil in H. discriminate.
  - apply replace_scan_absent, H.
Qed.

(** With an occurrence of [old], the result holds [new] as a substring:
    whatever [new] contains, the result contains. *)
Lemma replace_scan_present sub old new s :
  old <> "" ->
  PyStr.contains old s = true ->
  PyStr.contains sub new = true ->
  PyStr.contains sub (PyStr.replace_scan old new 0 s) = true.
Proof.
  intros Hold Hs Hnew. induction s as [|c s IH].
  - rewrite contains_unfold in Hs. destruct old; [congruence|discriminate].
  - cbn [PyStr.replace_scan]. rewrite contains_unfold in Hs.
    destruct (String.prefix old (String c s)) eqn:Hp.
    + now apply contains_app_l.
    + apply contains_cons, IH. exact Hs.
Qed.

Lemma replace_present sub old new s :
  old <> "" ->
  PyStr.contains old s = true ->
  PyStr.contains sub new = true ->
  PyStr.contains sub (PyStr.replace old new s) = true.
Proof.
  intros Hold Hs Hnew. destruct old as [|c old]; [congruence|].
  now apply replace_scan_present.
Qed.

Lemma lines_nonempty s : PyStr.lines s <> [].
Proof.
  destruct s as [|c s]; [discriminate|]. cbn [PyStr.lines].
  destruct (Ascii.eqb c PyStr.newline); [discriminate|].
  destruct (PyStr.lines s); discriminate.
Qed.

(** A literal without a newline is a prefix of a text exactly when it
    is a prefix of the text's first line. *)
Lemma prefix_first_line lit s :
  no_newline lit = true ->
  String.prefix lit s = String.prefix lit (hd "" (PyStr.lines s)).
Proof.
  revert lit. induction s as [|c s IH]; intros lit Hlit; [reflexivity|].
  destruct lit as [|a lit]; [now rewrite !prefix_nil|].
  cbn [no_newline] in Hlit. apply andb_true_iff in Hlit as [Ha Hlit].
  apply negb_true_iff in Ha.
  cbn [PyStr.lines]. destruct (Ascii.eqb c PyStr.newline) eqn:Hc.
  - apply Ascii.eqb_eq in Hc. subst c. cbn [hd].
    rewrite prefix_cons, Ha. reflexivity.
  - pose proof (lines_nonempty s) as Hne. specialize (IH lit Hlit).
    destruct (PyStr.lines s) as [|l ls]; [congruence|]. cbn [hd] in *.
    rewrite !prefix_cons. now rewrite IH.
Qed.

(** The count of [^lit] matches is positive exactly when a line begins
    with [lit]; [bol] says whether the first line counts. *)
Lemma count_bol_lines lit bol s :
  lit <> "" -> no_newline lit = true ->
  (0 <? PyStr.count_bol lit bol s)%nat
  = (bol && String.prefix lit (hd "" (PyStr.lines s)))
    || existsb (String.prefix lit) (tl (PyStr.lines s)).
Proof.
  intros Hne Hnl. revert bol. induction s as [|c s IH]; intros bol.
  - cbn. destruct lit; [congruence|]. now rewrite andb_false_r.
  - cbn [PyStr.count_bol PyStr.lines].
    rewrite (prefix_first_line lit (String c s) Hnl). cbn [PyStr.lines].
    pose proof (lines_nonempty s) as Hl.
    destruct (Ascii.eqb c PyStr.newline) eqn:Hc.
    + cbn [hd tl]. destruct lit as [|a lit]; [congruence|].
      rewrite prefix_cons_nil, andb_false_r. cbn [Nat.add orb].
      rewrite IH. destruct (PyStr.lines s) as [|l ls]; [congruence|].
      reflexivity.
    + specialize (IH false). cbn [andb orb] in IH.
      destruct (PyStr.lines s) as [|l ls]; [congruence|]. cbn [hd tl] in *.
      destruct (bol && String.prefix lit (String c l)); cbn [orb Nat.add].
      * reflexivity.
      * exact IH.
Qed.

Lemma Token_Count_lines content :
  negb (Nat.eqb (Token_Count content) 0) = has_token_line content.
Proof.
  unfold Token_Count, has_token_line.
  pose proof (count_bol_lines "token=" true content ltac:(discriminate) eq_refl) as H.
  pose proof (lines_nonempty content) as Hl.
  destruct (PyStr.lines content) as [|l ls]; [congruence|].
  cbn [hd tl andb existsb] in *. rewrite <- H.
  destruct (PyStr.count_bol "token=" true content); reflexivity.
Qed.


(** ** Text mode *)

Lemma string_strong_ind (P : string -> Prop) :
  (forall s, (forall t, String.length t < String.length s -> P t) -> P s) ->
  forall s, P s.
Proof.
  intros step s.
  assert (H : forall n t, String.length t < n -> P t).
  { induction n as [|n IH]; intros t Ht; [lia|].
    apply step. intros u Hu. apply IH. lia. }
  apply (H (S (String.length s))). lia.
Qed.

Lemma universal_newlines_cons c s :
  PyStr.universal_newlines (String c s)
  = if Ascii.eqb c PyStr.carriage_return then
      String PyStr.newline
        match s with
        | EmptyString => EmptyString
        | String d s' =>
            if Ascii.eqb d PyStr.newline then PyStr.universal_newlines s'
            else PyStr.universal_newlines s
        end
    else String c (PyStr.universal_newlines s).
Proof. reflexivity. Qed.

(** A literal without line ends starts the text read exactly when it
    starts the text stored. *)
Lemma prefix_universal_newlines lit s :
  no_newline lit = true -> no_carriage_return lit = true ->
  String.prefix lit (PyStr.universal_newlines s) = String.prefix lit s.
Proof.
  revert s. induction lit as [|a lit IH]; intros s Hn Hc.
  - now rewrite !prefix_nil.
  - cbn [no_newline no_carriage_return] in Hn, Hc.
    apply andb_true_iff in Hn as [Han Hn]. apply andb_true_iff in Hc as [Hac Hc].
    apply negb_true_iff in Han, Hac.
    destruct s as [|c s]; [reflexivity|]. rewrite universal_newlines_cons.
    destruct (Ascii.eqb c PyStr.carriage_return) eqn:Hcr.
    + apply Ascii.eqb_eq in Hcr. subst c. rewrite !prefix_cons, Han, Hac. reflexivity.
    + rewrite !prefix_cons. destruct (Ascii.eqb a c); [apply IH; assumption|reflexivity].
Qed.

(** So it occurs in the text read exactly when it occurs in the text
    stored. *)
Lemma contains_universal_newlines lit s :
  no_newline lit = true -> no_carriage_return lit = true ->
  PyStr.contains lit (PyStr.universal_newlines s) = PyStr.contains lit s.
Proof.
  intros Hn Hc. induction s as [s IH] using string_strong_ind.
  destruct s as [|c s]; [reflexivity|].
  rewrite (contains_unfold lit (String c s)).
  rewrite (contains_unfold lit (PyStr.universal_newlines (String c s))).
  rewrite (prefix_universal_newlines lit (String c s) Hn Hc).
  destruct (String.prefix lit (String c s)) eqn:Hp; [reflexivity|]. cbn [orb].
  rewrite universal_newlines_cons.
  destruct (Ascii.eqb c PyStr.carriage_return) eqn:Hcr.
  - destruct s as [|d s]; [reflexivity|].
    destruct (Ascii.eqb d PyStr.newline) eqn:Hd.
    + apply Ascii.eqb_eq in Hd. subst d.
      rewrite (contains_unfold lit (String PyStr.newline s)).
      destruct lit as [|a lit]; [rewrite prefix_nil in Hp; discriminate|].
      cbn [no_newline] in Hn. apply andb_true_iff in Hn as [Han _].
      apply negb_true_iff in Han. rewrite prefix_cons, Han. cbn [orb].
      apply IH. cbn. lia.
    + apply IH. cbn. lia.
  - apply IH. cbn. lia.
Qed.

Lemma contains_placeholder_universal_newlines s :
  PyStr.contains Token_Placeholder (PyStr.universal_newlines s)
  = PyStr.contains Token_Placeholder s.
Proof. apply contains_universal_newlines; reflexivity. Qed.

(** A text that was read holds no carriage return, and reading it again
    gives the same text. *)
Lemma universal_newlines_no_carriage_return s :
  no_carriage_return (PyStr.universal_newlines s) = true.
Proof.
  induction s as [s IH] using string_strong_ind.
  destruct s as [|c s]; [reflexivity|]. rewrite universal_newlines_cons.
  destruct (Ascii.eqb c PyStr.carriage_return) eqn:Hcr.
  - cbn [no_carriage_return]. change (Ascii.eqb PyStr.newline PyStr.carriage_return) with false.
    cbn [negb andb]. destruct s as [|d s]; [reflexivity|].
    destruct (Ascii.eqb d PyStr.newline); apply IH; cbn; lia.
  - cbn [no_carriage_return]. rewrite Hcr. cbn [negb andb]. apply IH. cbn. lia.
Qed.

Lemma universal_newlines_fixed s :
  no_carriage_return s = true -> PyStr.universal_newlines s = s.
Proof.
  induction s as [|c s IH]; intros H; [reflexivity|].
  cbn [no_carriage_return] in H. apply andb_true_iff in H as [Hc H].
  apply negb_true_iff in Hc. rewrite universal_newlines_cons, Hc. f_equal. auto.
Qed.

Lemma universal_newlines_idem s :
  PyStr.universal_newlines (PyStr.universal_newlines s) = PyStr.universal_newlines s.
Proof. apply universal_newlines_fixed, universal_newlines_no_carriage_return. Qed.

(** The lines of the text read are the lines of the file. *)
Lemma lines_universal_newlines s :
  PyStr.lines (PyStr.universal_newlines s) = text_lines s.
Proof.
  induction s as [s IH] using string_strong_ind.
  destruct s as [|c s]; [reflexivity|]. rewrite universal_newlines_cons.
  cbn [text_lines]. destruct (Ascii.eqb c PyStr.carriage_return) eqn:Hcr.
  - cbn [PyStr.lines]. rewrite Ascii.eqb_refl. f_equal.
    destruct s as [|d s]; [reflexivity|].
    destruct (Ascii.eqb d PyStr.newline); apply IH; cbn; lia.
  - cbn [PyStr.lines]. destruct (Ascii.eqb c PyStr.newline).
    + f_equal. apply IH. cbn. lia.
    + rewrite IH by (cbn; lia). reflexivity.
Qed.

Lemma has_token_line_read stored :
  has_token_line (PyStr.universal_newlines stored) = file_has_token_line stored.
Proof. unfold has_token_line, file_has_token_line. now rewrite lines_universal_newlines. Qed.

Lemma length_append a b :
  String.length (a +:+ b) = String.length a + String.length b.
Proof.
  induction a as [|c a IH]; [reflexivity|].
  change (String c a +:+ b) with (String c (a +:+ b)). cbn. now rewrite IH.
Qed.

Lemma Backup_File_ne E : Backup_File E <> Config_File_Path.
Proof.
  unfold Backup_File. intros H. apply (f_equal String.length) in H.
  rewrite !length_append in H. cbn in H. lia.
Qed.

Lemma store_ne p q data o (m : gmap string string) :
  p <> q -> store p data o m !! q = m !! q.
Proof.
  intros H. unfold store.
  destruct o as [|c msg [n|]];
    [apply lookup_insert_ne, H|apply lookup_insert_ne, H|reflexivity].
Qed.

Lemma store_written p data (m : gmap string string) :
  store p data Written m !! p = Some data.
Proof. apply lookup_insert_eq. Qed.

(** * Properties of the script *)

(** ** Symbolic execution

    A run is a nest of [match]es over the outcomes in [Env].  The tactics
    below evaluate a run kept in a hypothesis [H : run ... = (r, w)],
    splitting on whatever the evaluation is blocked on, until the result
    and the final world are explicit. *)

#[local] Arguments raise {A} e w /.
#[local] Arguments ret {A} a w /.
#[local] Arguments Config_File_Path : simpl never.
#[local] Arguments Backup_File : simpl never.
#[local] Arguments store : simpl never.
#[local] Arguments PyStr.replace : simpl never.
#[local] Arguments PyStr.contains : simpl never.
#[local] Arguments PyStr.strip : simpl never.
#[local] Arguments PyStr.universal_newlines : simpl never.
#[local] Arguments PyStr.of_nat : simpl never.
#[local] Arguments Token_Count : simpl never.
#[local] Arguments re_escape_str : simpl never.

Ltac unfold_script H :=
  unfold run, main, validate_prerequisites, fetch_keyvault_secret,
    fetch_keyvault_secret_sdk, fetch_keyvault_secret_cli, update_ansible_config,
    verify_update, report_fetch_failure, re_escape, str_replace,
    try_except, try_, bind, print_status, print_blank, emit, subprocess_run,
    path_exists, sdk_call, copy2, read_text, write_text, sys_exit, start, log in H.

(** The term the evaluation of [t] waits for. *)
Ltac head_of t :=
  lazymatch t with
  | match ?x with _ => _ end => head_of x
  | (match ?x with _ => _ end) _ => head_of x
  | negb ?x => head_of x
  | bool_decide (is_Some ?x) => head_of x
  | write_result ?o => head_of o
  | _ => t
  end.

Ltac simp_fs H :=
  repeat first
    [ rewrite (store_ne _ _ _ _ _ (Backup_File_ne _)) in H
    | rewrite (store_ne _ _ _ _ _ (not_eq_sym (Backup_File_ne _))) in H
    | rewrite store_written in H ].

(** Evaluate as far as the known facts about the file system allow. *)
Ltac norm H := cbn in H; repeat (progress (simp_fs H); cbn in H).

Ltac step H :=
  norm H;
  lazymatch type of H with
  | (_, _) = _ => fail
  | ?lhs = _ =>
      let h := head_of lhs in
      first
        [ is_var h; destruct h
        | match goal with Hh : h = _ |- _ => rewrite Hh in H end
        | destruct h eqn:? ]
  end.

Ltac exec H := unfold_script H; repeat step H; norm H.

Ltac unfold_goal :=
  unfold run, main, validate_prerequisites, fetch_keyvault_secret,
    fetch_keyvault_secret_sdk, fetch_keyvault_secret_cli, update_ansible_config,
    verify_update, report_fetch_failure, re_escape, str_replace,
    try_except, try_, bind, print_status, print_blank, emit, subprocess_run,
    path_exists, sdk_call, copy2, read_text, write_text, sys_exit, start, log.

(** Use the facts found while evaluating one run to evaluate another. *)
Ltac rewrite_known :=
  repeat (match goal with
          | Hh : ?h = _ |- context [?h] => rewrite Hh
          end; cbn).

Ltac simp_fs_goal :=
  repeat first
    [ rewrite (store_ne _ _ _ _ _ (Backup_File_ne _))
    | rewrite (store_ne _ _ _ _ _ (not_eq_sym (Backup_File_ne _)))
    | rewrite store_written ].

Ltac start_run E files r w H :=
  unfold status, final;
  destruct (run E files) as [r w] eqn:H;
  destruct E as [sdk azv azs sdks cli nw bk rd wr rs vf];
  cbn [AZURE_SDK_AVAILABLE az_version az_account_show sdk_get_secret az_secret_show
       now io_backup io_read io_write io_restore io_verify] in *.

(** What a run that exits with 0 has done: the target existed, the
    fetch delivered a string, and the target now holds the text that
    the patcher read with the placeholder replaced, in which the
    verifier, reading it, found no placeholder and a token line. *)
Lemma run_success_inv E files :
  status E files = 0%Z ->
  exists orig tok,
    files !! Config_File_Path = Some orig
    /\ (forall w, fst (fetch_keyvault_secret E w) = Ret (Some tok))
    /\ fs (final E files) !! Config_File_Path
       = Some (PyStr.replace Token_Placeholder tok (PyStr.universal_newlines orig))
    /\ PyStr.contains Token_Placeholder (verified_text tok orig) = false
    /\ Nat.eqb (Token_Count (verified_text tok orig)) 0 = false.
Proof.
  unfold verified_text. start_run E files r w Hrun. exec Hrun.
  all: injection Hrun as <- <-; cbn; intros Hs; try discriminate Hs.
  all: eexists _, _; split; [reflexivity|split; [|split; [|split]]].
  all: try (intros w0; unfold_goal; cbn; rewrite_known; reflexivity).
  all: simp_fs_goal; try reflexivity; try assumption.
Qed.

(** C1, as amended: after a run that exits with code 0, the target file
    holds the text that was read from it (its original content with
    every CR LF and CR turned into LF) with every occurrence of the
    placeholder replaced by the fetched secret, and the placeholder is
    absent from it. *)
Theorem successful_run_substitutes E files :
  status E files = 0%Z ->
  exists orig tok,
    files !! Config_File_Path = Some orig
    /\ (forall w, fst (fetch_keyvault_secret E w) = Ret (Some tok))
    /\ fs (final E files) !! Config_File_Path
       = Some (PyStr.replace Token_Placeholder tok (PyStr.universal_newlines orig))
    /\ PyStr.contains Token_Placeholder
         (PyStr.replace Token_Placeholder tok (PyStr.universal_newlines orig)) = false.
Proof.
  intros Hs. destruct (run_success_inv E files Hs) as (orig & tok & H1 & H2 & H3 & H4 & _).
  unfold verified_text in H4. rewrite contains_placeholder_universal_newlines in H4.
  exists orig, tok. auto.
Qed.

Lemma successful_run_substitutes_witness :
  status (sdk_env (Some "abc123")) sample_files = 0%Z
  /\ exists orig tok,
       sample_files !! Config_File_Path = Some orig
       /\ (forall w, fst (fetch_keyvault_secret (sdk_env (Some "abc123")) w) = Ret (Some tok))
       /\ fs (final (sdk_env (Some "abc123")) sample_files) !! Config_File_Path
          = Some (PyStr.replace Token_Placeholder tok (PyStr.universal_newlines orig))
       /\ PyStr.contains Token_Placeholder
            (PyStr.replace Token_Placeholder tok (PyStr.universal_newlines orig)) = false.
Proof.
  split; [vm_compute; reflexivity|].
  apply (successful_run_substitutes (sdk_env (Some "abc123")) sample_files).
  vm_compute. reflexivity.
Defined.

(** C1, as stated, fails: a target with CR LF line ends is read in text
    mode, so the successful run stores the patched text with LF line
    ends, which is not the stored original with the placeholder
    replaced. *)
Lemma successful_run_rewrites_line_ends :
  status (sdk_env (Some "abc123")) crlf_files = 0%Z
  /\ crlf_files !! Config_File_Path = Some crlf_config
  /\ fs (final (sdk_env (Some "abc123")) crlf_files) !! Config_File_Path
     = Some ("token=abc123" +:+ String PyStr.newline "")
  /\ PyStr.replace Token_Placeholder "abc123" crlf_config
     = "token=abc123" +:+ String PyStr.carriage_return (String PyStr.newline "")
  /\ ~ success_patches_stored_text.
Proof.
  split; [vm_compute; reflexivity|]. split; [vm_compute; reflexivity|].
  split; [vm_compute; reflexivity|]. split; [vm_compute; reflexivity|].
  intros H. destruct (H (sdk_env (Some "abc123")) crlf_files) as (orig & tok & Ho & Hf & Hfs & _).
  { vm_compute. reflexivity. }
  vm_compute in Ho. injection Ho as <-.
  specialize (Hf (start crlf_files)). vm_compute in Hf. injection Hf as <-.
  vm_compute in Hfs. discriminate Hfs.
Qed.

(** Case analysis on membership in an explicit journal. *)
Ltac in_cases H :=
  cbn in H; repeat (destruct H as [H|H]); try contradiction.

(** Find an entry in an explicit journal. *)
Ltac in_pick := cbn; solve [repeat (first [left; reflexivity | right])].

Ltac absurd_paths :=
  exfalso;
  match goal with
  | H : Backup_File ?E = Config_File_Path |- _ => exact (Backup_File_ne E H)
  | H : Config_File_Path = Backup_File ?E |- _ => exact (Backup_File_ne E (eq_sym H))
  end.

(** C2, as amended: when the write step raises an I/O error, the process
    exits with code 1 after starting the copy of the backup over the
    target; the target holds its pre-run content again when that copy
    returns normally. *)
Theorem write_failure_restores E files :
  write_step_failed (final E files) ->
  status E files = 1%Z
  /\ restore_attempted E (final E files)
  /\ (restored E (final E files) ->
      fs (final E files) !! Config_File_Path = files !! Config_File_Path).
Proof.
  unfold write_step_failed, restore_attempted, restored.
  start_run E files r w Hrun. exec Hrun.
  all: injection Hrun as <- <-; cbn [fst snd journal fs exit_code].
  all: intros (en & data & cw & mw & Hin & Hcall & Hr & Hsub).
  all: in_cases Hin; subst en; cbn in Hcall, Hr; try discriminate.
  all: injection Hr as -> ->.
  all: try (destruct cw; discriminate).
  all: split; [reflexivity|split].
  all: try (eexists (mkEntry _ _ _); (split; [|reflexivity]); in_pick).
  all: intros (en & Hin & Hc2 & Hr2).
  all: in_cases Hin; subst en; cbn in Hc2, Hr2; try discriminate.
  all: try (injection Hc2 as Ha Hb; absurd_paths).
  all: simp_fs_goal; congruence.
Qed.

Lemma disk_full_write_fails : write_step_failed (final disk_full_env sample_files).
Proof.
  exists (nth 5 (journal (final disk_full_env sample_files)) (mkEntry (Exists "") ∅ None)),
    ("token=abc123" +:+ String PyStr.newline ""), OSError,
    "[Errno 28] No space left on device".
  split.
  { vm_compute. do 5 right. left. reflexivity. }
  split; [|split]; vm_compute; reflexivity.
Qed.

Lemma write_failure_restores_witness :
  write_step_failed (final disk_full_env sample_files)
  /\ status disk_full_env sample_files = 1%Z.
Proof.
  split; [exact disk_full_write_fails|].
  exact (proj1 (write_failure_restores disk_full_env sample_files disk_full_write_fails)).
Defined.

(** C2, as stated, fails: on a full disk the write truncates the target
    and the restoring copy fails too, so the target is left empty. *)
Lemma write_failure_may_lose_target :
  write_step_failed (final disk_full_env sample_files)
  /\ sample_files !! Config_File_Path = Some sample_config
  /\ fs (final disk_full_env sample_files) !! Config_File_Path = Some ""
  /\ ~ write_failure_always_restores.
Proof.
  split; [exact disk_full_write_fails|].
  split; [vm_compute; reflexivity|]. split; [vm_compute; reflexivity|].
  intros H. destruct (H disk_full_env sample_files disk_full_write_fails) as [Hfs _].
  vm_compute in Hfs. discriminate Hfs.
Qed.

Lemma each_with_prefix_split P j :
  forall acc, each_with_prefix P acc j ->
  forall pre en post, j = pre ++ en :: post -> P (acc ++ pre) en.
Proof.
  induction j as [|x j IH]; intros acc H pre en post Heq.
  - destruct pre; discriminate.
  - destruct H as [Hx Hj]. destruct pre as [|y pre]; cbn in Heq; injection Heq as -> ->.
    + now rewrite app_nil_r.
    + specialize (IH _ Hj pre en post eq_refl).
      now rewrite <- app_assoc in IH.
Qed.

Lemma Backup_File_eqb E : String.eqb (Backup_File E) Config_File_Path = false.
Proof. apply String.eqb_neq, Backup_File_ne. Qed.

Ltac eqb_paths H :=
  rewrite ?Backup_File_eqb, ?String.eqb_refl in H; cbn in H.

(** C3: in every run, a call that writes to the target comes after a
    copy of the target to the backup path that returned normally, and
    at the first such write the backup and the target hold the same
    content; if the backup copy raises, the process exits with code 1
    and no call writes to the target, whose content is unchanged. *)
Theorem backup_precedes_overwrite E files :
  (forall pre en post,
      journal (final E files) = pre ++ en :: post -> guarded_write E pre en)
  /\ (backup_failed E (final E files) ->
      status E files = 1%Z
      /\ fs (final E files) !! Config_File_Path = files !! Config_File_Path
      /\ no_write_to_target (journal (final E files)) = true).
Proof.
  unfold backup_failed.
  start_run E files r w Hrun. exec Hrun.
  all: injection Hrun as <- <-; cbn [fst snd journal fs exit_code].
  all: split.
  all: try (apply (each_with_prefix_split (guarded_write _) _ []);
            cbn [each_with_prefix app]; repeat apply conj; try exact I;
            unfold guarded_write; cbn [call writes_to before]; intros Hw;
            eqb_paths Hw; try discriminate Hw;
            (apply conj;
             [eexists (mkEntry _ _ _); (apply conj; [|apply conj; reflexivity]); in_pick
             |intros Hfirst; unfold no_write_to_target in Hfirst; cbn in Hfirst;
              eqb_paths Hfirst;
              first [discriminate Hfirst
                    |eexists; apply conj; simp_fs_goal; [eassumption|reflexivity]]])).
  all: intros (b & e & Hin & Hc & Hr); in_cases Hin; subst b; cbn in Hc, Hr;
    try discriminate; try (injection Hc as Ha Hb; absurd_paths).
  all: split; [reflexivity|split; [simp_fs_goal; congruence|]].
  all: unfold no_write_to_target; cbn; rewrite ?Backup_File_eqb; reflexivity.
Qed.

Ltac absurd_class :=
  match goal with
  | Hs : issubclass ?x _ = true |- _ => exfalso; destruct x; cbn in *; congruence
  end.

(** C4: when the SDK call raises an exception (a subclass of
    [Exception]), the next external call of the run is the CLI
    retrieval; and if that raises or yields an output that is empty
    after trimming, the process exits with code 1 and no call has
    created or changed a file. *)
Theorem sdk_failure_falls_back_to_cli E files c msg found :
  In (mkEntry (GetSecret Vault_Url Secret_Name Secret_Version) found (Some (Exc c msg)))
     (journal (final E files)) ->
  issubclass c Exception = true ->
  (exists pre cli_en post,
      journal (final E files)
      = pre ++ mkEntry (GetSecret Vault_Url Secret_Name Secret_Version) found
                 (Some (Exc c msg)) :: cli_en :: post
      /\ call cli_en = Subprocess az_secret_show_argv)
  /\ (cli_yields_nothing E ->
      status E files = 1%Z
      /\ fs (final E files) = files
      /\ no_mutation (journal (final E files)) = true).
Proof.
  unfold cli_yields_nothing.
  start_run E files r w Hrun. exec Hrun.
  all: injection Hrun as <- <-; cbn [fst snd journal fs exit_code].
  all: intros Hin Hsub; in_cases Hin; try discriminate Hin.
  all: injection Hin as <- <- <-.
  all: try absurd_class.
  all: split; [eexists [_; _], _, _; split; reflexivity|].
  all: intros [(c' & m' & Hcli)|(out & Hcli & Hstrip)]; try discriminate Hcli.
  all: try (injection Hcli as <-).
  all: try (match goal with H : PyStr.is_empty (PyStr.strip _) = false |- _ =>
                              rewrite Hstrip in H; discriminate H end).
  all: repeat split; reflexivity.
Qed.

Lemma sdk_failure_falls_back_to_cli_witness :
  issubclass Exception Exception = true
  /\ cli_yields_nothing sdk_down_env
  /\ status sdk_down_env sample_files = 1%Z
  /\ fs (final sdk_down_env sample_files) = sample_files.
Proof.
  assert (Hcli : cli_yields_nothing sdk_down_env).
  { left. eexists _, _. reflexivity. }
  split; [reflexivity|]. split; [exact Hcli|].
  assert (Hin : In (mkEntry (GetSecret Vault_Url Secret_Name Secret_Version) sample_files
                      (Some (Exc Exception "DefaultAzureCredential failed to retrieve a token")))
                   (journal (final sdk_down_env sample_files))).
  { vm_compute. right. right. left. reflexivity. }
  destruct (proj2 (sdk_failure_falls_back_to_cli sdk_down_env sample_files _ _ _ Hin eq_refl)
              Hcli) as (H1 & H2 & _).
  split; assumption.
Defined.

(** C5 fails on the code: the SDK path hands on [Secret.value] without
    the emptiness check of the CLI path.  With an empty secret value the
    fetch reports success and delivers the empty string, the patcher
    replaces the placeholder by nothing, and the run exits with code 0. *)
Theorem sdk_empty_secret_reaches_patch :
  (forall w, fst (fetch_keyvault_secret (sdk_env (Some "")) w) = Ret (Some ""))
  /\ status (sdk_env (Some "")) sample_files = 0%Z
  /\ fs (final (sdk_env (Some "")) sample_files) !! Config_File_Path
     = Some ("token=" +:+ String PyStr.newline "")
  /\ In (WriteText Config_File_Path ("token=" +:+ String PyStr.newline ""))
       (map call (journal (final (sdk_env (Some "")) sample_files))).
Proof.
  split; [intros w; reflexivity|].
  split; [vm_compute; reflexivity|]. split; [vm_compute; reflexivity|].
  vm_compute. do 5 right. left. reflexivity.
Qed.

(** The CLI path does treat an empty value as a failure. *)
Lemma cli_empty_secret_is_refused E w :
  (exists out, az_secret_show E = Returns out /\ cli_token out = "") ->
  fst (fetch_keyvault_secret_cli E w) = Raise (SystemExit 1).
Proof.
  unfold cli_token. intros (out & Ho & Hs). unfold_goal. rewrite Ho. cbn. rewrite Hs.
  reflexivity.
Qed.

(** A run that has exited with 0 can be repeated: the second run reads
    what the verifier of the first has read, finds no placeholder,
    writes that text back and exits with 0. *)
Lemma second_run_passes E files :
  status E files = 0%Z ->
  status E (fs (final E files)) = 0%Z.
Proof.
  start_run E files r w Hrun. exec Hrun.
  all: injection Hrun as <- <-; cbn [fst snd fs exit_code]; intros Hs; try discriminate Hs.
  all: match goal with
       | Hc : PyStr.contains Token_Placeholder ?c = false |- _ =>
           pose proof (fun t => replace_absent Token_Placeholder t c Hc) as Hno
       end.
  all: match goal with
       | |- context [run ?E2 ?f2] => destruct (run E2 f2) as [r2 w2] eqn:H2
       end.
  all: unfold_script H2;
    repeat (norm H2; rewrite ?Hno, ?universal_newlines_idem in H2; step H2); norm H2.
  all: injection H2 as <- <-; reflexivity.
Qed.

(** C6: on a target without the placeholder the substitution changes
    nothing: the patcher writes back the text it read, which is the
    stored text itself when that holds no carriage return.  The
    verifier returns normally exactly when some line of the text read
    begins with [token=], that is, when some line of the file does; so
    a run that exited with 0 exits with 0 when repeated. *)
Theorem patch_without_placeholder_is_noop E w stored tok :
  fs w !! Config_File_Path = Some stored ->
  PyStr.contains Token_Placeholder stored = false ->
  PyStr.replace Token_Placeholder tok (PyStr.universal_newlines stored)
  = PyStr.universal_newlines stored
  /\ (no_carriage_return stored = true -> PyStr.universal_newlines stored = stored)
  /\ (io_backup E = Written -> io_read E = Returns tt -> io_write E = Written ->
      exists w',
        update_ansible_config E (Some tok) w = (Ret tt, w')
        /\ fs w' !! Config_File_Path = Some (PyStr.universal_newlines stored)
        /\ In (WriteText Config_File_Path (PyStr.universal_newlines stored))
             (map call (journal w')))
  /\ (io_verify E = Returns tt ->
      (exists w', verify_update E w = (Ret tt, w'))
      <-> has_token_line (PyStr.universal_newlines stored) = true)
  /\ has_token_line (PyStr.universal_newlines stored) = file_has_token_line stored
  /\ (forall E1 files,
        status E1 files = 0%Z -> status E1 (fs (final E1 files)) = 0%Z).
Proof.
  intros Hfs Hc0.
  assert (Hc : PyStr.contains Token_Placeholder (PyStr.universal_newlines stored) = false).
  { now rewrite contains_placeholder_universal_newlines. }
  pose proof (replace_absent Token_Placeholder tok _ Hc) as Hno.
  split; [exact Hno|]. split; [apply universal_newlines_fixed|].
  split; [|split; [|split; [apply has_token_line_read|]]].
  3: { intros E1 files Hs. exact (second_run_passes E1 files Hs). }
  - intros Hb Hr Hw. eexists. unfold_goal. rewrite Hb, Hr, Hw. cbn. rewrite Hfs.
    cbn. simp_fs_goal. rewrite Hfs. cbn. rewrite Hno.
    split; [reflexivity|]. cbn. split; [apply store_written|].
    rewrite map_app. apply in_or_app. right. cbn. auto.
  - intros Hv. rewrite <- Token_Count_lines.
    destruct (verify_update E w) as [r w'] eqn:Hrun.
    unfold_script Hrun. rewrite Hv in Hrun. cbn in Hrun. rewrite Hfs in Hrun.
    cbn in Hrun. rewrite Hc in Hrun.
    cbn in Hrun.
    destruct (Token_Count (PyStr.universal_newlines stored) =? 0)%nat eqn:Hn; cbn in Hrun;
      injection Hrun as <- <-; cbn.
    + split; [intros (w' & Hw'); discriminate Hw'|discriminate].
    + split; [reflexivity|intros _; eexists; reflexivity].
Qed.

Lemma patch_without_placeholder_is_noop_witness :
  fs (start patched_files) !! Config_File_Path = Some patched_config
  /\ PyStr.contains Token_Placeholder patched_config = false
  /\ PyStr.replace Token_Placeholder "abc123" (PyStr.universal_newlines patched_config)
     = PyStr.universal_newlines patched_config
  /\ PyStr.universal_newlines patched_config = patched_config
  /\ file_has_token_line patched_config = true.
Proof.
  split; [vm_compute; reflexivity|]. split; [reflexivity|].
  assert (Hfs : fs (start patched_files) !! Config_File_Path = Some patched_config).
  { vm_compute. reflexivity. }
  split; [|split; reflexivity].
  exact (proj1 (patch_without_placeholder_is_noop (sdk_env (Some "abc123"))
                  (start patched_files) patched_config "abc123" Hfs eq_refl)).
Defined.

(** C7: whatever exception the [az --version] probe raises (the CLI is
    missing, it errors, or it exceeds the timeout), and whether or not
    the SDK is available, the process exits with code 1 in validation:
    the probe is the only external call made and no file is touched. *)
Theorem cli_probe_failure_is_fatal E files c msg :
  az_version E = Raises c msg ->
  status E files = 1%Z
  /\ fs (final E files) = files
  /\ journal (final E files)
     = [mkEntry (Subprocess ["az"; "--version"]) files (Some (Exc c msg))].
Proof.
  intros Hv. start_run E files r w Hrun. subst azv.
  unfold_script Hrun. destruct c; cbn in Hrun; injection Hrun as <- <-; auto.
Qed.

Lemma cli_probe_failure_is_fatal_witness :
  az_version no_cli_env
  = Raises FileNotFoundError "[Errno 2] No such file or directory: 'az'"
  /\ status no_cli_env sample_files = 1%Z.
Proof.
  split; [reflexivity|].
  exact (proj1 (cli_probe_failure_is_fatal no_cli_env sample_files _ _ eq_refl)).
Defined.

(** C8: when the target file does not exist at the start, the process
    exits with code 1 during validation: the file system is unchanged
    (no backup, no write) and only validation calls were made. *)
Theorem missing_target_is_fatal E files :
  files !! Config_File_Path = None ->
  status E files = 1%Z
  /\ fs (final E files) = files
  /\ Forall (fun en => validation_call (call en) /\ mutating (call en) = false)
       (journal (final E files)).
Proof.
  intros Hn. start_run E files r w Hrun. exec Hrun.
  all: injection Hrun as <- <-; cbn; split; [reflexivity|split; [reflexivity|]].
  all: repeat (apply List.Forall_cons;
               [split; [unfold validation_call; cbn; auto|reflexivity]|]).
  all: apply List.Forall_nil.
Qed.

Lemma missing_target_is_fatal_witness :
  (∅ : gmap string string) !! Config_File_Path = None
  /\ status (sdk_env (Some "abc123")) ∅ = 1%Z.
Proof.
  split; [reflexivity|].
  exact (proj1 (missing_target_is_fatal (sdk_env (Some "abc123")) ∅ eq_refl)).
Defined.

Lemma validate_with_secret s E :
  validate_prerequisites (with_secret s E) = validate_prerequisites E.
Proof. destruct E; reflexivity. Qed.

Lemma update_with_secret s E :
  update_ansible_config (with_secret s E) = update_ansible_config E.
Proof. destruct E; reflexivity. Qed.

Lemma verify_with_secret s E : verify_update (with_secret s E) = verify_update E.
Proof. destruct E; reflexivity. Qed.

Lemma validate_ret E w w' :
  validate_prerequisites E w = (Ret tt, w') ->
  fs w' = fs w /\ exists orig, fs w !! Config_File_Path = Some orig.
Proof.
  intros H. destruct E as [sdk azv azs sdks cli nw bk rd wr rs vf].
  exec H. all: try discriminate H; inversion H; subst; cbn; eauto.
Qed.

(** The two fetches end in the same world, and deliver the two secrets,
    or the two secrets trimmed, or raise the same exception. *)
Lemma fetch_rel E s1 s2 w :
  PyStr.is_empty (cli_token s1) = PyStr.is_empty (cli_token s2) ->
  exists r1 r2 w',
    fetch_keyvault_secret (with_secret s1 E) w = (r1, w')
    /\ fetch_keyvault_secret (with_secret s2 E) w = (r2, w')
    /\ fs w' = fs w
    /\ ((exists e, r1 = Raise e /\ r2 = Raise e)
        \/ (r1 = Ret (Some s1) /\ r2 = Ret (Some s2))
        \/ (r1 = Ret (Some (cli_token s1)) /\ r2 = Ret (Some (cli_token s2)))).
Proof.
  unfold cli_token. intros Hemp.
  destruct (fetch_keyvault_secret (with_secret s1 E) w) as [r1 w1] eqn:H1.
  destruct (fetch_keyvault_secret (with_secret s2 E) w) as [r2 w2] eqn:H2.
  destruct E as [sdk azv azs sdks cli nw bk rd wr rs vf]. unfold with_secret in *.
  cbn [AZURE_SDK_AVAILABLE az_version az_account_show sdk_get_secret az_secret_show
       now io_backup io_read io_write io_restore io_verify] in *.
  symmetry in Hemp.
  exec H1. all: exec H2.
  all: injection H1 as <- <-; injection H2 as <- <-.
  all: try congruence.
  all: eexists _, _, _; split; [reflexivity|split; [reflexivity|split; [reflexivity|]]].
  all: eauto.
Qed.

(** The patcher prints and returns the same whatever string it is given;
    when it returns normally the target holds the text read with the
    placeholder replaced. *)
Lemma update_rel E t1 t2 w orig :
  fs w !! Config_File_Path = Some orig ->
  exists r w1 w2,
    update_ansible_config E (Some t1) w = (r, w1)
    /\ update_ansible_config E (Some t2) w = (r, w2)
    /\ console w1 = console w2
    /\ (forall u, r = Ret u ->
        fs w1 !! Config_File_Path
        = Some (PyStr.replace Token_Placeholder t1 (PyStr.universal_newlines orig))
        /\ fs w2 !! Config_File_Path
           = Some (PyStr.replace Token_Placeholder t2 (PyStr.universal_newlines orig))).
Proof.
  intros Hfs.
  destruct (update_ansible_config E (Some t1) w) as [r1 w1] eqn:H1.
  destruct (update_ansible_config E (Some t2) w) as [r2 w2] eqn:H2.
  destruct E as [sdk azv azs sdks cli nw bk rd wr rs vf].
  exec H1. all: exec H2.
  all: injection H1 as <- <-; injection H2 as <- <-.
  all: try congruence.
  all: eexists _, _, _; split; [reflexivity|split; [reflexivity|split; [reflexivity|]]].
  all: intros u Hu; try discriminate Hu; cbn; simp_fs_goal; split; reflexivity.
Qed.

(** The verifier prints and returns the same on two files that it reads
    with the same verdict. *)
Lemma verify_rel E w1 w2 c1 c2 :
  fs w1 !! Config_File_Path = Some c1 ->
  fs w2 !! Config_File_Path = Some c2 ->
  verdict (PyStr.universal_newlines c1) = verdict (PyStr.universal_newlines c2) ->
  console w1 = console w2 ->
  exists r w1' w2',
    verify_update E w1 = (r, w1')
    /\ verify_update E w2 = (r, w2')
    /\ console w1' = console w2'.
Proof.
  intros Hf1 Hf2 Hv Hc. unfold verdict in Hv. injection Hv as Hin Hcnt.
  symmetry in Hin.
  destruct (verify_update E w1) as [r1 w1'] eqn:H1.
  destruct (verify_update E w2) as [r2 w2'] eqn:H2.
  destruct E as [sdk azv azs sdks cli nw bk rd wr rs vf].
  exec H1. all: rewrite <- ?Hcnt in *; exec H2.
  all: injection H1 as <- <-; injection H2 as <- <-.
  all: try congruence.
  all: eexists _, _, _; split; [reflexivity|split; [reflexivity|]]; cbn; congruence.
Qed.

#[local] Arguments validate_prerequisites : simpl never.
#[local] Arguments fetch_keyvault_secret : simpl never.
#[local] Arguments update_ansible_config : simpl never.
#[local] Arguments verify_update : simpl never.

(** Finish a comparison of two runs whose remaining steps only branch on
    the class of one exception. *)
Ltac same_end :=
  cbn;
  repeat match goal with
         | |- context [if ?b then _ else _] => destruct b; cbn
         end;
  split; congruence.

(** Two runs that differ only in a secret the script cannot tell apart
    print the same and exit alike. *)
Lemma run_console_independent E files s1 s2 :
  same_verdicts files s1 s2 ->
  console (final (with_secret s1 E) files) = console (final (with_secret s2 E) files)
  /\ status (with_secret s1 E) files = status (with_secret s2 E) files.
Proof.
  intros [Hemp Hv]. unfold verified_text in Hv.
  unfold status, final, run, main, try_, bind, print_status, print_blank, emit, start.
  cbn. rewrite !validate_with_secret.
  match goal with
  | |- context [validate_prerequisites _ ?W] =>
      destruct (validate_prerequisites E W) as [[[]|e] wv] eqn:Hval
  end; [|same_end].
  apply validate_ret in Hval as [Hfs [orig Horig]]. cbn in Hfs, Horig.
  destruct (Hv orig Horig) as [Hv1 Hv2]. cbn.
  match goal with
  | |- context [fetch_keyvault_secret (with_secret s1 _) ?W] =>
      destruct (fetch_rel E s1 s2 W Hemp) as (r1 & r2 & wf & Hf1 & Hf2 & Hffs & Hcases)
  end.
  rewrite Hf1, Hf2. cbn in Hffs.
  destruct Hcases as [(e & -> & ->)|[[-> ->]|[-> ->]]]; cbn; [same_end| |].
  all: rewrite !update_with_secret.
  all: match goal with
       | |- context [update_ansible_config _ (Some ?t1) ?W] =>
           match goal with
           | |- context [update_ansible_config _ (Some ?t2) W] =>
               tryif constr_eq t1 t2 then fail else
                 destruct (update_rel E t1 t2 W orig)
                   as (r & wu1 & wu2 & Hu1 & Hu2 & Hcon & Hfin);
                 [cbn; congruence|]
           end
       end.
  all: rewrite Hu1, Hu2; destruct r as [[]|e]; cbn; [|same_end].
  all: destruct (Hfin tt eq_refl) as [Hc1 Hc2]; rewrite !verify_with_secret.
  all: match goal with
       | |- context [verify_update _ ?W1] =>
           match goal with
           | |- context [verify_update _ ?W2] =>
               tryif constr_eq W1 W2 then fail else
                 destruct (verify_rel E W1 W2 _ _ Hc1 Hc2)
                   as (r & wv1 & wv2 & Hr1 & Hr2 & Hcon2);
                 [assumption|cbn; congruence|]
           end
       end.
  all: rewrite Hr1, Hr2; destruct r as [[]|e]; same_end.
Qed.

Lemma cli_failure_report E s w e w' :
  fetch_keyvault_secret_cli (with_secret s E) w = (Raise e, w') ->
  exists out, console w' = console w ++ out /\ cli_failure_output E out.
Proof.
  intros H. destruct E as [sdk azv azs sdks cli nw bk rd wr rs vf].
  unfold with_secret, cli_failure_output in *.
  cbn [AZURE_SDK_AVAILABLE az_version az_account_show sdk_get_secret az_secret_show
       now io_backup io_read io_write io_restore io_verify] in *.
  exec H. all: try discriminate H; injection H as <- <-; cbn [console].
  all: rewrite <- ?app_assoc; cbn [app].
  all: first [exists []; split; [symmetry; apply app_nil_r|left; reflexivity]
             |eexists; split; [reflexivity|]; eauto 6].
Qed.

Lemma sdk_failure_report E s w e w' :
  fetch_keyvault_secret_sdk (with_secret s E) w = (Raise e, w') ->
  exists out, console w' = console w ++ out /\ sdk_failure_output E out.
Proof.
  intros H. destruct E as [sdk azv azs sdks cli nw bk rd wr rs vf].
  unfold with_secret, sdk_failure_output in *.
  cbn [AZURE_SDK_AVAILABLE az_version az_account_show sdk_get_secret az_secret_show
       now io_backup io_read io_write io_restore io_verify] in *.
  exec H. all: try discriminate H; injection H as <- <-; cbn [console].
  all: rewrite <- ?app_assoc; cbn [app].
  all: first [exists []; split; [symmetry; apply app_nil_r|left; reflexivity]
             |eexists; split; [reflexivity|]; eauto 6].
Qed.

(** C9: no line of the console is built from the secret.  Two runs that
    differ only in the secret print the same console and exit alike
    whenever the script cannot tell the secrets apart (as output of the
    CLI both are empty after trimming or neither is, and the verifier
    finds the same when it reads the patched target); and what a failed
    fetch prints is nothing, or one line with the exception's text
    followed by the vault URL, the secret's name and its version. *)
Theorem secret_never_printed E files s1 s2 :
  same_verdicts files s1 s2 ->
  console (final (with_secret s1 E) files) = console (final (with_secret s2 E) files)
  /\ status (with_secret s1 E) files = status (with_secret s2 E) files
  /\ (forall s w e w',
        fetch_keyvault_secret_cli (with_secret s E) w = (Raise e, w') ->
        exists out, console w' = console w ++ out /\ cli_failure_output E out)
  /\ (forall s w e w',
        fetch_keyvault_secret_sdk (with_secret s E) w = (Raise e, w') ->
        exists out, console w' = console w ++ out /\ sdk_failure_output E out).
Proof.
  intros Hsame.
  destruct (run_console_independent E files s1 s2 Hsame) as [Hc Hs].
  split; [exact Hc|split; [exact Hs|split]].
  - intros s w e w'. apply cli_failure_report.
  - intros s w e w'. apply sdk_failure_report.
Qed.

Lemma secret_never_printed_witness :
  same_verdicts sample_files "abc123" "s3cr3t-0ther"
  /\ console (final (with_secret "abc123" (sdk_env None)) sample_files)
     = console (final (with_secret "s3cr3t-0ther" (sdk_env None)) sample_files).
Proof.
  assert (H : same_verdicts sample_files "abc123" "s3cr3t-0ther").
  { split; [reflexivity|]. intros orig Ho. vm_compute in Ho. injection Ho as <-.
    split; vm_compute; reflexivity. }
  split; [exact H|].
  exact (proj1 (secret_never_printed (sdk_env None) sample_files _ _ H)).
Defined.

Ltac destruct_env E :=
  destruct E as [sdk azv azs sdks cli nw bk rd wr rs vf];
  cbn [AZURE_SDK_AVAILABLE az_version az_account_show sdk_get_secret az_secret_show
       now io_backup io_read io_write io_restore io_verify] in *.


Lemma validate_frame E w :
  exits_with_1 (fst (validate_prerequisites E w))
  /\ fs (snd (validate_prerequisites E w)) = fs w.
Proof.
  destruct (validate_prerequisites E w) as [r w1] eqn:H. destruct_env E.
  exec H. all: injection H as <- <-; split; reflexivity.
Qed.

Lemma fetch_frame E w :
  exits_with_1 (fst (fetch_keyvault_secret E w))
  /\ fs (snd (fetch_keyvault_secret E w)) = fs w.
Proof.
  destruct (fetch_keyvault_secret E w) as [r w1] eqn:H. destruct_env E.
  exec H. all: injection H as <- <-; split; reflexivity.
Qed.

Lemma update_frame E tok w : exits_with_1 (fst (update_ansible_config E tok w)).
Proof.
  destruct (update_ansible_config E tok w) as [r w1] eqn:H. destruct_env E.
  destruct tok. all: exec H. all: injection H as <- <-; reflexivity.
Qed.

Lemma verify_fs E w : fs (snd (verify_update E w)) = fs w.
Proof.
  destruct (verify_update E w) as [r w1] eqn:H. destruct_env E.
  exec H. all: injection H as <- <-; reflexivity.
Qed.

Lemma verify_frame E w : exits_with_1 (fst (verify_update E w)).
Proof.
  destruct (verify_update E w) as [r w1] eqn:H. destruct_env E.
  exec H. all: injection H as <- <-; reflexivity.
Qed.

(** Take the next stage of [main] apart: its result, its final world and
    what the stage lemma [L] says about them. *)
Ltac stage f L :=
  match goal with
  | |- context [f ?W] =>
      let Hf := fresh "Hf" in
      pose proof (L W) as Hf;
      let r := fresh "r" in let wn := fresh "w" in
      destruct (f W) as [r wn]; cbn [fst snd] in Hf
  end.

(** Close the case where a stage has raised: [main] prints one line and
    exits with 1, or lets a [SystemExit] through. *)
Ltac stage_raised e :=
  destruct e as [? ?|?]; cbn in *;
  repeat match goal with
         | |- context [if ?b then _ else _] => destruct b; cbn
         end;
  subst; cbn; auto.

(** When the prerequisites are met and the target exists, the validator
    returns and leaves the files alone. *)
Lemma validate_ok E w orig :
  prerequisites_met E ->
  fs w !! Config_File_Path = Some orig ->
  exists w', validate_prerequisites E w = (Ret tt, w') /\ fs w' = fs w.
Proof.
  intros [(o1 & Hv) Hlogin] Hfs.
  destruct (validate_prerequisites E w) as [r w1] eqn:H. destruct_env E. subst.
  exec H.
  all: try (destruct Hlogin as [Hl|(o2 & Hl)]; discriminate Hl).
  all: injection H as <- <-; eexists; split; reflexivity.
Qed.

(** When its three file operations succeed, the patcher returns and the
    target holds the text read with the placeholder replaced. *)
Lemma update_ok E t w orig :
  patch_io_succeeds E ->
  fs w !! Config_File_Path = Some orig ->
  exists w',
    update_ansible_config E (Some t) w = (Ret tt, w')
    /\ fs w' !! Config_File_Path
       = Some (PyStr.replace Token_Placeholder t (PyStr.universal_newlines orig)).
Proof.
  intros (Hb & Hr & Hw) Hfs.
  destruct (update_ansible_config E (Some t) w) as [r w1] eqn:H. destruct_env E. subst.
  exec H. injection H as <- <-. eexists. split; [reflexivity|].
  cbn. simp_fs_goal. reflexivity.
Qed.

(** A placeholder in the target makes the verifier exit with 1 right
    after the line that reports it. *)
Lemma verify_finds_placeholder E w content :
  fs w !! Config_File_Path = Some content ->
  io_verify E = Returns tt ->
  PyStr.contains Token_Placeholder content = true ->
  exists w',
    verify_update E w = (Raise (SystemExit 1), w')
    /\ fs w' = fs w
    /\ console w' = console w ++ [verifying_line; placeholder_found_line].
Proof.
  intros Hfs Hv Hc. rewrite <- contains_placeholder_universal_newlines in Hc.
  destruct (verify_update E w) as [r w1] eqn:H. destruct_env E. subst.
  exec H. injection H as <- <-. eexists. split; [reflexivity|]. split; [reflexivity|].
  cbn [console]. rewrite <- app_assoc. reflexivity.
Qed.

(** C10: when the fetched secret contains the placeholder and the
    target contains it too, no run exits with code 0.  The text that
    the patcher stores contains the placeholder again; when the
    prerequisites are met and the patcher's file operations succeed,
    the run ends with that text in the target, and the verifier, once
    it has read the target, reports the placeholder as the last line of
    the console and exits with code 1. *)
Theorem secret_with_placeholder_fails E files orig tok :
  files !! Config_File_Path = Some orig ->
  PyStr.contains Token_Placeholder orig = true ->
  (forall w, fst (fetch_keyvault_secret E w) = Ret (Some tok)) ->
  PyStr.contains Token_Placeholder tok = true ->
  status E files <> 0%Z
  /\ PyStr.contains Token_Placeholder
       (PyStr.replace Token_Placeholder tok (PyStr.universal_newlines orig)) = true
  /\ (prerequisites_met E -> patch_io_succeeds E ->
      fs (final E files) !! Config_File_Path
      = Some (PyStr.replace Token_Placeholder tok (PyStr.universal_newlines orig))
      /\ (io_verify E = Returns tt ->
          status E files = 1%Z
          /\ List.last (console (final E files)) "" = placeholder_found_line))
  /\ (forall w,
        fs w !! Config_File_Path
        = Some (PyStr.replace Token_Placeholder tok (PyStr.universal_newlines orig)) ->
        io_verify E = Returns tt ->
        exists w',
          verify_update E w = (Raise (SystemExit 1), w')
          /\ console w' = console w ++ [verifying_line; placeholder_found_line]).
Proof.
  intros Ho Hc Hf Ht.
  assert (Hre : PyStr.contains Token_Placeholder
                  (PyStr.replace Token_Placeholder tok (PyStr.universal_newlines orig))
                = true).
  { apply replace_present; [discriminate| |assumption].
    now rewrite contains_placeholder_universal_newlines. }
  split; [|split; [exact Hre|split]].
  - intros Hs.
    destruct (run_success_inv E files Hs) as (orig' & tok' & H1 & H2 & _ & H4 & _).
    rewrite Ho in H1. injection H1 as <-.
    specialize (H2 (start files)). rewrite Hf in H2. injection H2 as <-.
    unfold verified_text in H4. rewrite contains_placeholder_universal_newlines in H4.
    congruence.
  - intros Hpre Hio.
    unfold status, final, run, main, try_, bind, print_status, print_blank, emit, start.
    cbn.
    match goal with
    | |- context [validate_prerequisites E ?W] =>
        destruct (validate_ok E W orig Hpre Ho) as (wv & Hval & Hfsv)
    end.
    rewrite Hval. cbn in Hfsv. cbn.
    match goal with
    | |- context [fetch_keyvault_secret E ?W] =>
        pose proof (Hf W) as Hfw; pose proof (proj2 (fetch_frame E W)) as Hfsf;
        destruct (fetch_keyvault_secret E W) as [rf wf]
    end.
    cbn in Hfw, Hfsf. subst rf. cbn.
    match goal with
    | |- context [update_ansible_config E (Some tok) ?W] =>
        destruct (update_ok E tok W orig Hio) as (wu & Hup & Hfsu);
        [cbn; congruence|]
    end.
    rewrite Hup. cbn.
    split.
    + match goal with
      | |- context [verify_update E ?W] =>
          pose proof (verify_fs E W) as Hfsw;
          destruct (verify_update E W) as [rv wv']
      end.
      cbn in Hfsw. destruct rv as [[]|e]; cbn; [congruence|].
      destruct e as [c msg|code]; [destruct c|]; cbn; congruence.
    + intros Hv.
      match goal with
      | |- context [verify_update E ?W] =>
          destruct (verify_finds_placeholder E W _ Hfsu Hv Hre) as (w' & Hver & _ & Hcon)
      end.
      rewrite Hver. cbn. split; [reflexivity|].
      rewrite Hcon. cbn [console].
      change [verifying_line; placeholder_found_line]
        with ([verifying_line] ++ [placeholder_found_line]).
      rewrite app_assoc. apply last_last.
  - intros w Hw Hv.
    destruct (verify_finds_placeholder E w _ Hw Hv Hre) as (w' & H1 & _ & H2). eauto.
Qed.

Lemma secret_with_placeholder_fails_witness :
  PyStr.contains Token_Placeholder "My_Hub_Token_2024" = true
  /\ status (sdk_env (Some "My_Hub_Token_2024")) sample_files = 1%Z
  /\ fs (final (sdk_env (Some "My_Hub_Token_2024")) sample_files) !! Config_File_Path
     = Some ("token=My_Hub_Token_2024" +:+ String PyStr.newline "")
  /\ List.last (console (final (sdk_env (Some "My_Hub_Token_2024")) sample_files)) ""
     = placeholder_found_line.
Proof.
  split; [reflexivity|].
  assert (Hfs : sample_files !! Config_File_Path = Some sample_config).
  { vm_compute. reflexivity. }
  assert (Hfetch : forall w,
             fst (fetch_keyvault_secret (sdk_env (Some "My_Hub_Token_2024")) w)
             = Ret (Some "My_Hub_Token_2024")).
  { intros w. reflexivity. }
  assert (Hpre : prerequisites_met (sdk_env (Some "My_Hub_Token_2024"))).
  { split; [eexists; reflexivity|left; reflexivity]. }
  assert (Hio : patch_io_succeeds (sdk_env (Some "My_Hub_Token_2024"))).
  { repeat split. }
  destruct (secret_with_placeholder_fails (sdk_env (Some "My_Hub_Token_2024"))
              sample_files sample_config "My_Hub_Token_2024"
              Hfs eq_refl Hfetch eq_refl) as (_ & _ & Hrun & _).
  destruct (Hrun Hpre Hio) as (Hfinal & Hexit).
  destruct (Hexit eq_refl) as (Hstatus & Hlast).
  split; [exact Hstatus|]. split; [|exact Hlast].
  rewrite Hfinal. vm_compute. reflexivity.
Defined.


(** * Further properties of the script *)

Lemma count_bol_filter lit bol s :
  lit <> "" -> no_newline lit = true ->
  PyStr.count_bol lit bol s
  = (if bol && String.prefix lit (hd "" (PyStr.lines s)) then 1 else 0)
    + length (List.filter (String.prefix lit) (tl (PyStr.lines s))).
Proof.
  intros Hne Hnl. revert bol. induction s as [|c s IH]; intros bol.
  - cbn. destruct lit; [congruence|]. now rewrite andb_false_r.
  - cbn [PyStr.count_bol PyStr.lines].
    rewrite (prefix_first_line lit (String c s) Hnl). cbn [PyStr.lines].
    pose proof (lines_nonempty s) as Hl.
    destruct (Ascii.eqb c PyStr.newline) eqn:Hc.
    + cbn [hd tl]. destruct lit as [|a lit]; [congruence|].
      rewrite prefix_cons_nil, andb_false_r. cbn [Nat.add].
      rewrite IH. destruct (PyStr.lines s) as [|l ls]; [congruence|].
      cbn [hd tl andb List.filter].
      destruct (String.prefix (String a lit) l); reflexivity.
    + specialize (IH false). cbn [andb Nat.add] in IH.
      destruct (PyStr.lines s) as [|l ls]; [congruence|]. cbn [hd tl] in *.
      now rewrite IH.
Qed.

(** X1: the count that the verifier reports is the number of lines of
    the text that begin with [token=]. *)
Theorem Token_Count_counts_token_lines content :
  Token_Count content = length (token_lines content).
Proof.
  unfold Token_Count, token_lines.
  rewrite (count_bol_filter "token=" true content ltac:(discriminate) eq_refl).
  pose proof (lines_nonempty content) as Hl.
  destruct (PyStr.lines content) as [|l ls]; [congruence|].
  cbn [hd tl andb List.filter]. destruct (String.prefix "token=" l); reflexivity.
Qed.

#[local] Arguments PyStr.isspace : simpl never.

Lemma rstrip_cons c s :
  PyStr.rstrip (String c s)
  = if PyStr.isspace (String c (PyStr.rstrip s)) then EmptyString
    else String c (PyStr.rstrip s).
Proof. reflexivity. Qed.

Lemma rstrip_idem s : PyStr.rstrip (PyStr.rstrip s) = PyStr.rstrip s.
Proof.
  induction s as [|c s IH]; [reflexivity|]. rewrite rstrip_cons.
  destruct (PyStr.isspace (String c (PyStr.rstrip s))) eqn:Hc; [reflexivity|].
  rewrite rstrip_cons, IH, Hc. reflexivity.
Qed.

(** Trimming on the right leaves a prefix. *)
Lemma rstrip_prefix s : String.prefix (PyStr.rstrip s) s = true.
Proof.
  induction s as [|c s IH]; [reflexivity|]. rewrite rstrip_cons.
  destruct (PyStr.isspace (String c (PyStr.rstrip s))); [apply prefix_nil|].
  rewrite prefix_cons, Ascii.eqb_refl. exact IH.
Qed.

Lemma lstrip_length s : String.length (PyStr.lstrip s) <= String.length s.
Proof.
  induction s as [s IH] using string_strong_ind.
  destruct s as [|a s1]; [reflexivity|]. cbn [PyStr.lstrip].
  destruct (PyStr.isspace (String a "")).
  { specialize (IH s1 ltac:(cbn; lia)). cbn. lia. }
  destruct s1 as [|b s2]; [reflexivity|].
  destruct (PyStr.isspace (String a (String b ""))).
  { specialize (IH s2 ltac:(cbn; lia)). cbn. lia. }
  destruct s2 as [|c s3]; [reflexivity|].
  destruct (PyStr.isspace (String a (String b (String c "")))); [|reflexivity].
  specialize (IH s3 ltac:(cbn; lia)). cbn. lia.
Qed.

Lemma lstrip_idem s : PyStr.lstrip (PyStr.lstrip s) = PyStr.lstrip s.
Proof.
  induction s as [s IH] using string_strong_ind.
  destruct s as [|a s1]; [reflexivity|]. cbn [PyStr.lstrip].
  destruct (PyStr.isspace (String a "")) eqn:H1; [apply IH; cbn; lia|].
  destruct s1 as [|b s2]; [cbn [PyStr.lstrip]; now rewrite H1|].
  destruct (PyStr.isspace (String a (String b ""))) eqn:H2; [apply IH; cbn; lia|].
  destruct s2 as [|c s3]; [cbn [PyStr.lstrip]; now rewrite H1, H2|].
  destruct (PyStr.isspace (String a (String b (String c "")))) eqn:H3;
    [apply IH; cbn; lia|].
  cbn [PyStr.lstrip]. now rewrite H1, H2, H3.
Qed.

(** A text that starts with whitespace is made shorter. *)
Lemma lstrip_shorter u v :
  PyStr.lstrip v = u -> String.length v < String.length u -> False.
Proof. intros <- H. pose proof (lstrip_length v). lia. Qed.

(** If trimming on the left leaves a text alone, it leaves its prefixes
    alone. *)
Lemma lstrip_fixed_prefix p u :
  String.prefix p u = true -> PyStr.lstrip u = u -> PyStr.lstrip p = p.
Proof.
  intros Hp Hu.
  destruct p as [|a p1]; [reflexivity|]. destruct u as [|a' u1]; [discriminate Hp|].
  rewrite prefix_cons in Hp. destruct (Ascii.eqb a a') eqn:Ha; [|discriminate Hp].
  apply Ascii.eqb_eq in Ha. subst a'. cbn [PyStr.lstrip] in Hu |- *.
  destruct (PyStr.isspace (String a "")).
  { exfalso. apply (lstrip_shorter _ _ Hu). cbn. lia. }
  destruct p1 as [|b p2]; [reflexivity|]. destruct u1 as [|b' u2]; [discriminate Hp|].
  rewrite prefix_cons in Hp. destruct (Ascii.eqb b b') eqn:Hb; [|discriminate Hp].
  apply Ascii.eqb_eq in Hb. subst b'.
  destruct (PyStr.isspace (String a (String b ""))).
  { exfalso. apply (lstrip_shorter _ _ Hu). cbn. lia. }
  destruct p2 as [|c p3]; [reflexivity|]. destruct u2 as [|c' u3]; [discriminate Hp|].
  rewrite prefix_cons in Hp. destruct (Ascii.eqb c c') eqn:Hc; [|discriminate Hp].
  apply Ascii.eqb_eq in Hc. subst c'.
  destruct (PyStr.isspace (String a (String b (String c "")))); [|reflexivity].
  exfalso. apply (lstrip_shorter _ _ Hu). cbn. lia.
Qed.

Lemma strip_lstrip s : PyStr.lstrip (PyStr.strip s) = PyStr.strip s.
Proof.
  unfold PyStr.strip.
  exact (lstrip_fixed_prefix _ _ (rstrip_prefix (PyStr.lstrip s)) (lstrip_idem s)).
Qed.

Lemma strip_rstrip s : PyStr.rstrip (PyStr.strip s) = PyStr.strip s.
Proof. apply rstrip_idem. Qed.

(** X2: the validator returns normally exactly when the CLI probe
    returns, the login check returns or is skipped because the SDK is
    available, and the target exists; it never changes the file system. *)
Theorem validate_returns_iff E w :
  ((exists w', validate_prerequisites E w = (Ret tt, w'))
   <-> ((exists out, az_version E = Returns out)
        /\ (AZURE_SDK_AVAILABLE E = true \/ exists out, az_account_show E = Returns out)
        /\ is_Some (fs w !! Config_File_Path)))
  /\ fs (snd (validate_prerequisites E w)) = fs w.
Proof.
  destruct (validate_prerequisites E w) as [r w1] eqn:H. destruct_env E.
  exec H. all: injection H as <- <-; cbn [snd fs]; split; [|reflexivity].
  all: split;
    [intros (w' & Hw); try discriminate Hw; repeat split; eauto
    |intros ((out & Ho) & Hl & Hx); try discriminate Ho].
  all: try (eexists; reflexivity).
  all: try (destruct Hl as [Hl|(o & Hl)]; discriminate Hl).
  all: try (destruct Hx as [x Hx]; congruence).
Qed.

(** X3: the login check [az account show] is made exactly when the SDK is
    unavailable and the CLI probe returned. *)
Theorem login_check_only_without_sdk E w :
  exists j,
    journal (snd (validate_prerequisites E w)) = journal w ++ j
    /\ (In (Subprocess ["az"; "account"; "show"]) (map call j)
        <-> AZURE_SDK_AVAILABLE E = false /\ exists out, az_version E = Returns out).
Proof.
  destruct (validate_prerequisites E w) as [r w1] eqn:H. destruct_env E.
  exec H. all: injection H as <- <-; cbn [snd journal].
  all: rewrite <- ?app_assoc; cbn [app]; eexists; split; [reflexivity|].
  all: cbn; split; [intros Hin|intros [Hs (out & Ho)]].
  all: try discriminate.
  all: repeat (destruct Hin as [Hin|Hin]; try discriminate Hin); try contradiction.
  all: eauto.
Qed.

(** X4: when the SDK is available and returns, the fetcher hands on
    [Secret.value] exactly as it is (not trimmed, not checked), the CLI is
    not invoked, and the file system is untouched. *)
Theorem sdk_value_is_delivered_as_is E w v :
  AZURE_SDK_AVAILABLE E = true ->
  sdk_get_secret E = Returns v ->
  exists w',
    fetch_keyvault_secret E w = (Ret v, w')
    /\ fs w' = fs w
    /\ journal w'
       = journal w ++ [mkEntry (GetSecret Vault_Url Secret_Name Secret_Version) (fs w) None].
Proof.
  intros Hs Hv. destruct_env E. subst.
  eexists. unfold_goal. cbn. repeat split.
Qed.

(** X5: a token that the CLI path delivers is the output of the command,
    read as text and trimmed of whitespace (that of Unicode included);
    it is not empty, and trimming it again on either side changes
    nothing. *)
Theorem cli_token_is_trimmed E w tok w' :
  fetch_keyvault_secret_cli E w = (Ret tok, w') ->
  exists out t,
    az_secret_show E = Returns out
    /\ tok = Some t
    /\ t = PyStr.strip (PyStr.universal_newlines out)
    /\ t <> ""
    /\ PyStr.lstrip t = t
    /\ PyStr.rstrip t = t.
Proof.
  intros H. destruct_env E. exec H. all: try discriminate H.
  injection H as <- <-. eexists _, _. split; [reflexivity|split; [reflexivity|]].
  split; [reflexivity|]. split.
  - intros Hn. rewrite Hn in *. discriminate.
  - split; [apply strip_lstrip|apply strip_rstrip].
Qed.

(** X6: an exception of the CLI command other than [CalledProcessError],
    [TimeoutExpired] and [ValueError] (a missing binary, say) is not
    handled by the CLI path: it leaves it unchanged and nothing is
    printed. *)
Theorem cli_unhandled_exception_passes E w c msg :
  az_secret_show E = Raises c msg ->
  caught_by [CalledProcessError; TimeoutExpired; ValueError] (Exc c msg) = false ->
  exists w',
    fetch_keyvault_secret_cli E w = (Raise (Exc c msg), w')
    /\ console w' = console w
    /\ fs w' = fs w.
Proof.
  intros Hc Hn. destruct_env E. subst.
  eexists. unfold_goal. cbn in *. rewrite Hn. repeat split.
Qed.

(** X7: once the backup copy has succeeded, the backup file holds the
    target's original content when the patcher ends, however it ends. *)
Theorem backup_is_kept E tok w orig :
  fs w !! Config_File_Path = Some orig ->
  io_backup E = Written ->
  fs (snd (update_ansible_config E tok w)) !! Backup_File E = Some orig.
Proof.
  intros Hfs Hb. destruct (update_ansible_config E tok w) as [r w1] eqn:H.
  destruct_env E. subst. destruct tok as [t|].
  all: exec H. all: injection H as <- <-; cbn [snd fs].
  all: simp_fs_goal; reflexivity.
Qed.


(** X9: the verifier returns normally exactly when the target can be
    read and the text read does not contain the placeholder and has a
    line that begins with [token=]; in terms of the file: it does not
    contain the placeholder, and one of its lines, ended by LF, CR LF or
    CR, begins with [token=].  The verifier never changes the file
    system. *)
Theorem verify_returns_iff E w :
  ((exists w', verify_update E w = (Ret tt, w'))
   <-> (exists stored,
          fs w !! Config_File_Path = Some stored
          /\ io_verify E = Returns tt
          /\ PyStr.contains Token_Placeholder (PyStr.universal_newlines stored) = false
          /\ has_token_line (PyStr.universal_newlines stored) = true))
  /\ (forall stored,
        PyStr.contains Token_Placeholder (PyStr.universal_newlines stored)
        = PyStr.contains Token_Placeholder stored
        /\ has_token_line (PyStr.universal_newlines stored) = file_has_token_line stored)
  /\ fs (snd (verify_update E w)) = fs w.
Proof.
  split; [|split; [intros stored; split;
                   [apply contains_placeholder_universal_newlines|apply has_token_line_read]
                  |apply verify_fs]].
  destruct (verify_update E w) as [r w1] eqn:H. destruct_env E.
  exec H. all: injection H as <- <-.
  all: repeat match goal with u : unit |- _ => destruct u end.
  all: split;
    [intros (w' & Hw); try discriminate Hw
    |intros (content & Hc & Hv & Hp & Hl); try discriminate;
     rewrite <- Token_Count_lines in Hl].
  all: try (eexists; reflexivity).
  all: try (eexists; repeat split; try reflexivity; try assumption;
            rewrite <- Token_Count_lines;
            match goal with Hn : Nat.eqb _ 0 = false |- _ => now rewrite Hn end).
  all: try (injection Hc as <-; congruence).
  all: try (injection Hc as <-;
            match goal with Hn : Nat.eqb _ 0 = true |- _ => rewrite Hn in Hl; discriminate Hl end).
Qed.

(** X10: when the write raises something that is not an [OSError] (an
    encoding error, an interrupt), the patcher does not try to restore
    the backup: its calls are the backup copy, the read and the write,
    the exception leaves it as it is, and the target stays as the failed
    write left it.  What was to be written is the text read from the
    target with the placeholder replaced. *)
Theorem non_io_write_error_skips_restore E t w orig c msg partial :
  fs w !! Config_File_Path = Some orig ->
  io_backup E = Written ->
  io_read E = Returns tt ->
  io_write E = WriteFails c msg partial ->
  issubclass c OSError = false ->
  exists w' j,
    update_ansible_config E (Some t) w = (Raise (Exc c msg), w')
    /\ journal w' = journal w ++ j
    /\ map call j
       = [Copy2 Config_File_Path (Backup_File E);
          ReadText Config_File_Path;
          WriteText Config_File_Path
            (PyStr.replace Token_Placeholder t (PyStr.universal_newlines orig))]
    /\ fs w' !! Config_File_Path
       = match partial with
         | None => Some orig
         | Some n =>
             Some (PyStr.take n
                     (PyStr.replace Token_Placeholder t (PyStr.universal_newlines orig)))
         end.
Proof.
  intros Hfs Hb Hr Hw Hc. destruct (update_ansible_config E (Some t) w) as [r w1] eqn:H.
  destruct_env E. subst. exec H.
  all: try (exfalso; destruct c; cbn in *; congruence).
  injection H as <- <-. eexists _, _. split; [reflexivity|]. cbn [journal fs].
  rewrite <- !app_assoc. cbn [app]. split; [reflexivity|]. split; [reflexivity|].
  destruct partial as [n|]; unfold store.
  - apply lookup_insert_eq.
  - rewrite lookup_insert_ne by apply Backup_File_ne. exact Hfs.
Qed.

(** X11: the process exit code is 0 or 1, whatever happens. *)
Theorem exit_code_is_0_or_1 E files :
  status E files = 0%Z \/ status E files = 1%Z.
Proof.
  unfold status, run, main, try_, bind, print_status, print_blank, emit, start. cbn.
  stage (validate_prerequisites E) (validate_frame E). destruct Hf as [Hf _].
  destruct r as [[]|e]; cbn; [|stage_raised e].
  stage (fetch_keyvault_secret E) (fetch_frame E). destruct Hf0 as [Hf0 _].
  destruct r as [tok|e]; cbn; [|stage_raised e].
  stage (update_ansible_config E tok) (update_frame E tok).
  destruct r as [[]|e]; cbn; [|stage_raised e].
  stage (verify_update E) (verify_frame E).
  destruct r as [[]|e]; cbn; [auto|stage_raised e].
Qed.

(** X12: when the fetch fails, the run exits with 1 and the file system is
    as it was: no backup is made and nothing is written. *)
Theorem failed_fetch_touches_nothing E files :
  (forall w, exists e, fst (fetch_keyvault_secret E w) = Raise e) ->
  status E files = 1%Z /\ fs (final E files) = files.
Proof.
  intros Hfail.
  unfold status, final, run, main, try_, bind, print_status, print_blank, emit, start. cbn.
  stage (validate_prerequisites E) (validate_frame E). destruct Hf as [Hf Hfs].
  cbn in Hfs. destruct r as [[]|e]; cbn; [|stage_raised e].
  match goal with
  | |- context [fetch_keyvault_secret E ?W] => destruct (Hfail W) as [e He]
  end.
  stage (fetch_keyvault_secret E) (fetch_frame E). destruct Hf0 as [Hf0 Hfs0].
  cbn in He, Hfs0. subst r. cbn. stage_raised e; split; congruence.
Qed.

(** X13: when the SDK delivers no value ([Secret.value] is [None]), the
    run ends as an unexpected error with exit code 1; the target is never
    written. *)
Theorem none_secret_is_fatal E files :
  AZURE_SDK_AVAILABLE E = true ->
  sdk_get_secret E = Returns None ->
  status E files = 1%Z
  /\ fs (final E files) !! Config_File_Path = files !! Config_File_Path
  /\ no_write_to_target (journal (final E files)) = true.
Proof.
  intros Hs Hv. start_run E files r w Hrun. subst. exec Hrun.
  all: injection Hrun as <- <-; cbn [fst snd fs journal exit_code].
  all: split; [reflexivity|split; [simp_fs_goal; congruence|]].
  all: unfold no_write_to_target; cbn; rewrite ?Backup_File_eqb; reflexivity.
Qed.

(** X14: when the SDK raises and the output of the CLI command, read as
    text and trimmed of whitespace (that of Unicode included), is not
    empty, the fetcher delivers that trimmed text, having printed the
    SDK's failure report before the fallback notice. *)
Theorem cli_fallback_delivers_token E w c msg out :
  AZURE_SDK_AVAILABLE E = true ->
  sdk_get_secret E = Raises c msg ->
  issubclass c Exception = true ->
  az_secret_show E = Returns out ->
  PyStr.strip (PyStr.universal_newlines out) <> "" ->
  exists w',
    fetch_keyvault_secret E w
    = (Ret (Some (PyStr.strip (PyStr.universal_newlines out))), w')
    /\ console w'
       = console w
         ++ [Colors.YELLOW +:+ "🔐 Fetching AAP Hub token from Azure Key Vault..." +:+ Colors.NC;
             headline "Azure SDK" (Exc c msg)]
         ++ diagnostic_context
         ++ [Colors.YELLOW +:+ "🔄 Azure SDK failed, falling back to Azure CLI..." +:+ Colors.NC;
             Colors.GREEN +:+ "✅ Successfully retrieved AAP Hub token from Azure Key Vault"
               +:+ Colors.NC].
Proof.
  intros Hs Hv Hc Ho Hne. destruct (fetch_keyvault_secret E w) as [r w1] eqn:H.
  destruct_env E. subst. exec H.
  all: try (exfalso; destruct c; cbn in *; congruence).
  all: try (exfalso; destruct (PyStr.strip (PyStr.universal_newlines out));
            [congruence|discriminate]).
  injection H as <- <-. eexists. split; [reflexivity|]. cbn [console].
  rewrite <- !app_assoc. reflexivity.
Qed.

(** X15: without the SDK the fetcher makes one external call, the CLI
    command, and leaves the file system as it is. *)
Theorem fetch_without_sdk_uses_cli E w :
  AZURE_SDK_AVAILABLE E = false ->
  exists j,
    journal (snd (fetch_keyvault_secret E w)) = journal w ++ j
    /\ map call j = [Subprocess az_secret_show_argv]
    /\ fs (snd (fetch_keyvault_secret E w)) = fs w.
Proof.
  intros Hs. destruct (fetch_keyvault_secret E w) as [r w1] eqn:H.
  destruct_env E. subst. exec H.
  all: injection H as <- <-; cbn [snd journal fs]; eexists; repeat split.
Qed.

Lemma replace_scan_skip old new u s :
  PyStr.replace_scan old new (String.length u) (u +:+ s) = PyStr.replace_scan old new 0 s.
Proof.
  induction u as [|c u IH]; [reflexivity|].
  change (String c u +:+ s) with (String c (u +:+ s)). exact IH.
Qed.

Lemma prefix_refl_app a b : String.prefix a (a +:+ b) = true.
Proof.
  induction a as [|c a IH]; [apply prefix_nil|].
  change (String c a +:+ b) with (String c (a +:+ b)).
  now rewrite prefix_cons, Ascii.eqb_refl.
Qed.

(** X16: [replace] works from left to right without overlap: a text that
    starts with [old] becomes [new] followed by the replacement of the
    rest; a text that does not start with [old] keeps its first
    character. *)
Theorem replace_left_to_right old new :
  old <> "" ->
  (forall s, PyStr.replace old new (old +:+ s) = new +:+ PyStr.replace old new s)
  /\ (forall c s,
        String.prefix old (String c s) = false ->
        PyStr.replace old new (String c s) = String c (PyStr.replace old new s))
  /\ PyStr.replace old new "" = "".
Proof.
  intros Hne. destruct old as [|a old]; [congruence|]. unfold PyStr.replace.
  split; [|split].
  - intros s. change (String a old +:+ s) with (String a (old +:+ s)).
    cbn [PyStr.replace_scan].
    change (String a (old +:+ s)) with (String a old +:+ s).
    rewrite prefix_refl_app. f_equal.
    replace (String.length (String a old) - 1) with (String.length old) by (cbn; lia).
    apply replace_scan_skip.
  - intros c s Hp. cbn [PyStr.replace_scan]. now rewrite Hp.
  - reflexivity.
Qed.

(** X17: when an external call is interrupted ([KeyboardInterrupt]), the
    run reports the cancellation as its last line and exits with 1. *)
Theorem interrupt_is_reported E files en msg :
  In en (journal (final E files)) ->
  raised en = Some (Exc KeyboardInterrupt msg) ->
  status E files = 1%Z
  /\ List.last (console (final E files)) "" = cancelled_line.
Proof.
  start_run E files r w Hrun. exec Hrun.
  all: injection Hrun as <- <-; cbn [fst snd console journal exit_code].
  all: intros Hin Hr; in_cases Hin; subst en; cbn in Hr; try discriminate Hr.
  all: injection Hr as -> ->.
  all: try (exfalso; cbn in *; congruence).
  all: split; reflexivity.
Qed.

Lemma sdk_value_is_delivered_as_is_witness :
  fst (fetch_keyvault_secret (sdk_env (Some "  abc 123 ")) (start sample_files))
  = Ret (Some "  abc 123 ").
Proof.
  destruct (sdk_value_is_delivered_as_is (sdk_env (Some "  abc 123 ")) (start sample_files)
              (Some "  abc 123 ") eq_refl eq_refl) as (w' & H & _).
  rewrite H. reflexivity.
Defined.

Lemma cli_token_is_trimmed_witness :
  exists out t,
    az_secret_show cli_only_env = Returns out
    /\ Some "abc123" = Some t
    /\ t = PyStr.strip (PyStr.universal_newlines out)
    /\ t <> ""
    /\ PyStr.lstrip t = t
    /\ PyStr.rstrip t = t.
Proof.
  apply (cli_token_is_trimmed cli_only_env (start sample_files) (Some "abc123")
           (snd (fetch_keyvault_secret_cli cli_only_env (start sample_files)))).
  vm_compute. reflexivity.
Defined.

Lemma cli_unhandled_exception_passes_witness :
  fst (fetch_keyvault_secret_cli missing_binary_env (start sample_files))
  = Raise (Exc FileNotFoundError "[Errno 2] No such file or directory: 'az'").
Proof.
  destruct (cli_unhandled_exception_passes missing_binary_env (start sample_files)
              _ _ eq_refl eq_refl) as (w' & H & _).
  rewrite H. reflexivity.
Defined.

Lemma cli_fallback_delivers_token_witness :
  fst (fetch_keyvault_secret fallback_env (start sample_files)) = Ret (Some "abc123").
Proof.
  assert (Hne : PyStr.strip (PyStr.universal_newlines ("abc123" +:+ String PyStr.newline ""))
                <> "").
  { vm_compute. discriminate. }
  destruct (cli_fallback_delivers_token fallback_env (start sample_files)
              _ _ _ eq_refl eq_refl eq_refl eq_refl Hne) as (w' & H & _).
  rewrite H. reflexivity.
Defined.

Lemma fetch_without_sdk_uses_cli_witness :
  AZURE_SDK_AVAILABLE cli_only_env = false
  /\ fs (snd (fetch_keyvault_secret cli_only_env (start sample_files))) = sample_files.
Proof.
  split; [reflexivity|].
  destruct (fetch_without_sdk_uses_cli cli_only_env (start sample_files) eq_refl)
    as (j & _ & _ & H).
  exact H.
Defined.

Lemma backup_is_kept_witness :
  fs (snd (update_ansible_config disk_full_env (Some "abc123") (start sample_files)))
    !! Backup_File disk_full_env
  = Some sample_config.
Proof.
  apply (backup_is_kept disk_full_env (Some "abc123") (start sample_files) sample_config).
  - vm_compute. reflexivity.
  - reflexivity.
Defined.

Lemma non_io_write_error_skips_restore_witness :
  issubclass KeyboardInterrupt OSError = false
  /\ fst (update_ansible_config interrupted_write_env (Some "abc123") (start sample_files))
     = Raise (Exc KeyboardInterrupt "").
Proof.
  split; [reflexivity|].
  assert (Hfs : fs (start sample_files) !! Config_File_Path = Some sample_config).
  { vm_compute. reflexivity. }
  destruct (non_io_write_error_skips_restore interrupted_write_env "abc123"
              (start sample_files) sample_config _ _ _ Hfs eq_refl eq_refl eq_refl eq_refl)
    as (w' & j & H & _).
  rewrite H. reflexivity.
Defined.

Lemma failed_fetch_touches_nothing_witness :
  status sdk_down_env sample_files = 1%Z
  /\ fs (final sdk_down_env sample_files) = sample_files.
Proof.
  apply (failed_fetch_touches_nothing sdk_down_env sample_files).
  intros w. eexists. reflexivity.
Defined.

Lemma none_secret_is_fatal_witness :
  sdk_get_secret (sdk_env None) = Returns None
  /\ status (sdk_env None) sample_files = 1%Z.
Proof.
  split; [reflexivity|].
  exact (proj1 (none_secret_is_fatal (sdk_env None) sample_files eq_refl eq_refl)).
Defined.

Lemma interrupt_is_reported_witness :
  status interrupted_write_env sample_files = 1%Z
  /\ List.last (console (final interrupted_write_env sample_files)) "" = cancelled_line.
Proof.
  apply (interrupt_is_reported interrupted_write_env sample_files
           (nth 5 (journal (final interrupted_write_env sample_files))
              (mkEntry (Exists "") ∅ None)) "").
  - vm_compute. do 5 right. left. reflexivity.
  - vm_compute. reflexivity.
Defined.

Lemma replace_left_to_right_witness :
  Token_Placeholder <> ""
  /\ PyStr.replace Token_Placeholder "abc123" (Token_Placeholder +:+ "!")
     = "abc123" +:+ PyStr.replace Token_Placeholder "abc123" "!".
Proof.
  assert (Hne : Token_Placeholder <> "") by discriminate.
  split; [exact Hne|].
  exact (proj1 (replace_left_to_right Token_Placeholder "abc123" Hne) "!").
Defined.
